(** * The meters REST example (jusong_example/meters.go)

    A shallow embedding of the handlers, the resolver middleware, the
    request binding and the in-memory store of [meters.go].

    Go pointers are modelled by an explicit heap: a [*Meter] is a location,
    the package variable [meters] is a list of locations, and every write
    through a pointer is a heap update, so that the aliasing between the
    store, the request context and the request payload is the one of the
    source.

    What the file imports from libraries is kept abstract (Section
    variables): [strings.ToLower], [time.ParseDuration], the key folding
    of [encoding/json], and the [UserPayload] type with its decoding and
    binding, which is declared in another file of the package.

    Scope of the model:
    - request bodies are decoded by the JSON decoder of [render.Decode];
      [encoding/json] is modelled on the [MeterRequest] struct as far as its
      documented behaviour decides the outcome: keys are decoded in order, a
      key of the embedded [*Meter] allocates it when nil, "id" goes to the
      shallower [ProtectedID], unknown keys are skipped, a value of the wrong
      type is recorded as an error and decoding goes on;
    - [render.Bind] returns the decoding error if there is one, then calls
      the [Bind] of the fields of the payload that are binders and not nil
      (the user payload) and, last, the [Bind] of the payload itself: the
      binder of the library works bottom-up;
    - [MeterResponse.Render] always returns nil, so the [ErrRender] branches
      of the handlers are never taken and are left out;
    - a panic ends the request it occurs in and leaves the state as it is at
      that point; later requests are served (net/http recovers it);
    - requests are served one at a time; the only interleaving considered
      is the one between the resolver and the handler it guards, by calling
      the handler with a pointer resolved in an earlier state. *)

From Stdlib Require Import ZArith Lia Ascii.
From stdpp Require Import base list strings pretty.

Local Open Scope string_scope.
Local Open Scope Z_scope.
Local Open Scope list_scope.

(** ** Data model *)

(** [type Meter struct] (meters.go, 243-253).  [duration] is the unexported
    [time.Duration] (an int64 count of nanoseconds). *)
Record Meter : Type := mkMeter {
  ID : string;
  UserID : Z;
  ProjectName : string;
  OraConnectID : string;
  OraUser : string;
  OraPassword : string;
  Duration : string;
  duration : Z;
  Slug : string
}.

#[global] Instance Meter_eq_dec : EqDecision Meter.
Proof. solve_decision. Defined.

(** The zero value [Meter{}], what [new(Meter)] points to. *)
Definition zeroMeter : Meter := mkMeter "" 0 "" "" "" "" "" 0 "".

Definition set_ID (v : string) (m : Meter) : Meter :=
  mkMeter v (UserID m) (ProjectName m) (OraConnectID m) (OraUser m)
          (OraPassword m) (Duration m) (duration m) (Slug m).
Definition set_UserID (v : Z) (m : Meter) : Meter :=
  mkMeter (ID m) v (ProjectName m) (OraConnectID m) (OraUser m)
          (OraPassword m) (Duration m) (duration m) (Slug m).
Definition set_ProjectName (v : string) (m : Meter) : Meter :=
  mkMeter (ID m) (UserID m) v (OraConnectID m) (OraUser m)
          (OraPassword m) (Duration m) (duration m) (Slug m).
Definition set_OraConnectID (v : string) (m : Meter) : Meter :=
  mkMeter (ID m) (UserID m) (ProjectName m) v (OraUser m)
          (OraPassword m) (Duration m) (duration m) (Slug m).
Definition set_OraUser (v : string) (m : Meter) : Meter :=
  mkMeter (ID m) (UserID m) (ProjectName m) (OraConnectID m) v
          (OraPassword m) (Duration m) (duration m) (Slug m).
Definition set_OraPassword (v : string) (m : Meter) : Meter :=
  mkMeter (ID m) (UserID m) (ProjectName m) (OraConnectID m) (OraUser m)
          v (Duration m) (duration m) (Slug m).
Definition set_Duration (v : string) (m : Meter) : Meter :=
  mkMeter (ID m) (UserID m) (ProjectName m) (OraConnectID m) (OraUser m)
          (OraPassword m) v (duration m) (Slug m).
Definition set_duration (v : Z) (m : Meter) : Meter :=
  mkMeter (ID m) (UserID m) (ProjectName m) (OraConnectID m) (OraUser m)
          (OraPassword m) (Duration m) v (Slug m).
Definition set_Slug (v : string) (m : Meter) : Meter :=
  mkMeter (ID m) (UserID m) (ProjectName m) (OraConnectID m) (OraUser m)
          (OraPassword m) (Duration m) (duration m) v.

(** A [*Meter] that is not nil is a location of the heap. *)
Abbreviation loc := nat (only parsing).

(** The program state: the objects allocated so far and the package
    variable [meters], a slice of pointers. *)
Record State : Type := mkState {
  heap : list Meter;
  meters : list loc
}.

(** [new(Meter)]: the next free location, holding the zero value. *)
Definition alloc (h : list Meter) : loc * list Meter :=
  (length h, h ++ [zeroMeter]).

(** A write [p.f = v] through a pointer. *)
Definition store (p : loc) (f : Meter -> Meter) (h : list Meter) : list Meter :=
  match h !! p with
  | Some m => <[p := f m]> h
  | None => h
  end.

(** Meter fixture data (meters.go, 256-262). *)
Definition fixtures : list Meter :=
  [ mkMeter "1" 100 "Hi" "" "" "" "" 0 "hi";
    mkMeter "2" 200 "sup" "" "" "" "" 0 "sup";
    mkMeter "3" 300 "alo" "" "" "" "" 0 "alo";
    mkMeter "4" 400 "bonjour" "" "" "" "" 0 "bonjour";
    mkMeter "5" 500 "whats up" "" "" "" "" 0 "whats-up" ].

Definition initState : State := mkState fixtures [0; 1; 2; 3; 4]%nat.

(** The records of the store, in store order: what a walk over [meters]
    that dereferences every pointer sees. *)
Definition records (st : State) : list Meter :=
  omap (fun p => heap st !! p) (meters st).

Definition ids (st : State) : list string := ID <$> records st.

(** Every pointer of the store is allocated (Go has no dangling pointer,
    and [meters] never receives nil). *)
Definition wf (st : State) : Prop :=
  Forall (fun p => (p < length (heap st))%nat) (meters st).

(** ** Requests and responses *)

(** A JSON value as far as the fields of the payload tell values apart:
    null, a string, an integer literal, anything else (booleans, numbers
    with a fraction or an exponent, arrays, objects). *)
Inductive jvalue : Type :=
  | JNull
  | JStr (s : string)
  | JInt (n : Z)
  | JOther.

(** A request body seen by the JSON decoder. *)
Inductive Body : Type :=
  | BodyInvalid                                (* empty or not JSON *)
  | BodyNull                                   (* the literal null *)
  | BodyNonObject                              (* any other non-object value *)
  | BodyObject (kvs : list (string * jvalue)). (* members, in order *)

Inductive error : Type :=
  | errDecode                        (* returned by render.Decode *)
  | errParseDuration (s : string)    (* "Parse %v to duration failed." *)
  | errUserBind                      (* returned by the Bind of the user payload *)
  | errMeterNotFound.                (* errors.New("meter not found.") *)

(** Modelled from the spec: the error renderers [ErrNotFound],
    [ErrInvalidRequest] and [ErrRender] are declared in another file of the
    package; the spec gives them as the Not-Found (404), Invalid-Request (400)
    and Render-Failure responses.  [Rendered status m] is a rendered
    [NewMeterResponse]: the record the wrapped pointer refers to when it is
    rendered.  [Panic] is a run-time panic of the handler. *)
Inductive Response : Type :=
  | Rendered (status : nat) (m : Meter)
  | RenderedList (ms : list Meter)
  | ErrNotFound
  | ErrInvalidRequest (e : error)
  | Panic.

(** The fields [encoding/json] sees in a [MeterRequest] (meters.go,
    168-174): the promoted fields of the embedded [*Meter], except [ID] whose
    key "id" is taken by the shallower [ProtectedID], then [User] and
    [ProtectedID].  The unexported [duration] is not a JSON field. *)
Inductive MeterField : Type :=
  | FUserID | FProjectName | FOraConnectID | FOraUser | FOraPassword
  | FDuration | FSlug.

Inductive RequestField : Type :=
  | FMeter (f : MeterField)
  | FUser
  | FProtectedID.

Definition jsonFields : list (string * RequestField) :=
  [ ("user_id", FMeter FUserID);
    ("project", FMeter FProjectName);
    ("ora_conn", FMeter FOraConnectID);
    ("ora_user", FMeter FOraUser);
    ("ora_password", FMeter FOraPassword);
    ("duration", FMeter FDuration);
    ("slug", FMeter FSlug);
    ("user", FUser);
    ("id", FProtectedID) ].

Definition int64_ok (n : Z) : bool :=
  (- 2 ^ 63 <=? n) && (n <? 2 ^ 63).

(** Storing a JSON value into a field of the Meter: [Some f] is the write,
    [None] an UnmarshalTypeError.  null leaves the field as it is. *)
Definition decodeMeterField (f : MeterField) (v : jvalue) : option (Meter -> Meter) :=
  match f, v with
  | _, JNull => Some id
  | FUserID, JInt n => if int64_ok n then Some (set_UserID n) else None
  | FUserID, _ => None
  | FProjectName, JStr s => Some (set_ProjectName s)
  | FOraConnectID, JStr s => Some (set_OraConnectID s)
  | FOraUser, JStr s => Some (set_OraUser s)
  | FOraPassword, JStr s => Some (set_OraPassword s)
  | FDuration, JStr s => Some (set_Duration s)
  | FSlug, JStr s => Some (set_Slug s)
  | _, _ => None
  end.

(** ** Library instances used in the examples

    ASCII lower-casing, on which [strings.ToLower] and the key folding of
    [encoding/json] agree for ASCII text. *)
Definition asciiLowerChar (c : ascii) : ascii :=
  let n := nat_of_ascii c in
  if ((65 <=? n) && (n <=? 90))%nat then ascii_of_nat (n + 32) else c.

Fixpoint asciiLower (s : string) : string :=
  match s with
  | EmptyString => EmptyString
  | String c s' => String (asciiLowerChar c) (asciiLower s')
  end.

(** [time.ParseDuration] on the strings made of an optional sign and groups
    of decimal digits followed by one of the ASCII units: the whole-number
    durations.  A fraction or any other unit gives [None] here. *)
Definition unitMap (u : string) : option Z :=
  if decide (u = "ns") then Some 1
  else if decide (u = "us") then Some 1000
  else if decide (u = "ms") then Some 1000000
  else if decide (u = "s") then Some 1000000000
  else if decide (u = "m") then Some 60000000000
  else if decide (u = "h") then Some 3600000000000
  else None.

Definition digitOf (c : ascii) : option Z :=
  let n := nat_of_ascii c in
  if ((48 <=? n) && (n <=? 57))%nat then Some (Z.of_nat n - 48) else None.

(** The scanner is either inside the digits of a group ([InNum v seen]) or
    inside its unit ([InUnit v u]); [d] is the sum of the groups closed so
    far. *)
Inductive scan : Type :=
  | InNum (v : Z) (seen : bool)
  | InUnit (v : Z) (u : string).

Definition closeGroup (d v : Z) (u : string) : option Z :=
  match unitMap u with
  | None => None
  | Some unit =>
      if 2 ^ 63 / unit <? v then None
      else if 2 ^ 63 <? d + v * unit then None
      else Some (d + v * unit)
  end.

Fixpoint scanDuration (s : string) (d : Z) (k : scan) : option Z :=
  match s with
  | EmptyString =>
      match k with
      | InNum _ _ => None
      | InUnit v u => closeGroup d v u
      end
  | String c s' =>
      match digitOf c, k with
      | Some x, InNum v _ =>
          if 2 ^ 63 / 10 <? v then None
          else if 2 ^ 63 <? v * 10 + x then None
          else scanDuration s' d (InNum (v * 10 + x) true)
      | Some x, InUnit v u =>
          match closeGroup d v u with
          | Some d' => scanDuration s' d' (InNum x true)
          | None => None
          end
      | None, InNum v seen =>
          if negb seen || bool_decide (c = "."%char) then None
          else scanDuration s' d (InUnit v (String c EmptyString))
      | None, InUnit v u =>
          if bool_decide (c = "."%char) then None
          else scanDuration s' d (InUnit v (u +:+ String c EmptyString))
      end
  end.

Definition wholeParseDuration (s : string) : option Z :=
  let '(neg, s1) :=
    match s with
    | String c s' =>
        if bool_decide (c = "-"%char) then (true, s')
        else if bool_decide (c = "+"%char) then (false, s')
        else (false, s)
    | EmptyString => (false, s)
    end in
  if decide (s1 = "0") then Some 0
  else
    match scanDuration s1 0 (InNum 0 false) with
    | None => None
    | Some d => if neg then Some (- d)
                else if 2 ^ 63 - 1 <? d then None else Some d
    end.

(** A payload without a user type: the key "user" decodes to nothing and
    never fails. *)
Definition noUser (v : jvalue) (u : option unit) : option unit * bool :=
  (None, false).
Definition noUserBind (u : unit) : bool := false.

(** A payload with a user type that takes any JSON value that is not
    null, a string or an integer, and whose [Bind] always returns an
    error. *)
Definition strictUser (v : jvalue) (u : option unit) : option unit * bool :=
  match v with
  | JOther => (Some tt, false)
  | JNull => (None, false)
  | _ => (u, true)
  end.
Definition strictUserBind (u : unit) : bool := true.

(** The bodies of the requests of the repository's curl script, and a few
    more. *)
Definition bodyAwesomeness : Body :=
  BodyObject [("id", JStr "will-be-omitted"); ("project", JStr "awesomeness")].
Definition bodyNoId : Body := BodyObject [("project", JStr "No-id-example")].
Definition bodyBadDuration : Body :=
  BodyObject [("project", JStr "BAD-duration-example"); ("ora_conn", JStr "user1");
              ("ora_password", JStr "Your-PassWd"); ("duration", JStr "D1393")].
Definition bodyOnlyId : Body := BodyObject [("id", JStr "will-be-omitted")].
Definition bodyNumericId : Body := BodyObject [("id", JInt 5)].
Definition bodyProject (X : string) : Body := BodyObject [("project", JStr X)].
Definition bodyNumericIdProject : Body :=
  BodyObject [("id", JInt 5); ("project", JStr "p")].
Definition bodyBadDurationUser : Body :=
  BodyObject [("project", JStr "BAD-duration-example"); ("duration", JStr "D1393");
              ("user", JOther)].
Definition bodyOnlyUser : Body := BodyObject [("user", JOther)].

(** The fixture store after DELETE /meters/1. *)
Definition stateWithout1 : State := mkState fixtures [1; 2; 3; 4]%nat.

(** ** The program *)

Section Model.

(** [strings.ToLower]. *)
Variable ToLower : string -> string.
(** [time.ParseDuration]: [Some d] for ([d], nil), [None] for (0, err). *)
Variable ParseDuration : string -> option Z.
(** The case folding under which [encoding/json] matches an object key
    with a field name when no name matches exactly. *)
Variable foldName : string -> string.
(** [UserPayload], declared in another file of the package: how a JSON
    value decodes into the [User] field (the new pointer and whether an
    error was recorded) and whether its [Bind] returns an error. *)
Variable UserPayload : Type.
Variable decodeUserPayload : jvalue -> option UserPayload -> option UserPayload * bool.
Variable bindUserPayload : UserPayload -> bool.

(** [type MeterRequest struct] (meters.go, 168-174); [MeterPtr] is the
    embedded [*Meter], [None] when nil. *)
Record MeterRequest : Type := mkMeterRequest {
  MeterPtr : option loc;
  User : option UserPayload;
  ProtectedID : string
}.

(** The field an object key is decoded into: the field of that exact
    name, else the first field whose name matches under folding; [None]
    for a key that is skipped. *)
Definition fieldOf (key : string) : option RequestField :=
  match list_find (fun nf => nf.1 = key) jsonFields with
  | Some (_, nf) => Some nf.2
  | None =>
      match list_find (fun nf => foldName nf.1 = foldName key) jsonFields with
      | Some (_, nf) => Some nf.2
      | None => None
      end
  end.

(** One member of the body object.  The accumulator is the payload, the
    heap and whether an error has been recorded: a value of the wrong type
    records an error, its field is skipped and decoding goes on.  A key of
    the embedded Meter allocates the Meter first when the pointer is nil,
    whatever the value is. *)
Definition decodeMember (acc : MeterRequest * list Meter * bool)
    (kv : string * jvalue) : MeterRequest * list Meter * bool :=
  let '(a, h, e) := acc in
  match fieldOf kv.1 with
  | None => acc
  | Some FProtectedID =>
      match kv.2 with
      | JNull => acc
      | JStr s => (mkMeterRequest (MeterPtr a) (User a) s, h, e)
      | _ => (a, h, true)
      end
  | Some FUser =>
      let '(u, e') := decodeUserPayload kv.2 (User a) in
      (mkMeterRequest (MeterPtr a) u (ProtectedID a), h, e || e')
  | Some (FMeter f) =>
      let '(p, h1) := match MeterPtr a with
                      | Some p => (p, h)
                      | None => alloc h
                      end in
      let a1 := mkMeterRequest (Some p) (User a) (ProtectedID a) in
      match decodeMeterField f kv.2 with
      | Some w => (a1, store p w h1, e)
      | None => (a1, h1, true)
      end
  end.

(** [render.Decode] with the JSON decoder, into the payload [a]. *)
Definition DecodeJSON (body : Body) (a : MeterRequest) (h : list Meter)
    : MeterRequest * list Meter * bool :=
  match body with
  | BodyInvalid => (a, h, true)
  | BodyNull => (a, h, false)
  | BodyNonObject => (a, h, true)
  | BodyObject kvs => foldl decodeMember (a, h, false) kvs
  end.

(** What [MeterRequest.Bind] (meters.go, 176-191) does to the record
    [a.Meter] points to, and the error it returns.  On a parse failure
    [time.ParseDuration] returns a zero duration, which is assigned too. *)
Definition BindMeter (m : Meter) : Meter * option error :=
  let m1 := set_Slug (ToLower (ProjectName m)) m in
  let m2 := if decide (Duration m1 = "") then set_Duration "1h" m1 else m1 in
  match ParseDuration (Duration m2) with
  | Some d => (set_duration d m2, None)
  | None => (set_duration 0 m2, Some (errParseDuration (Duration m2)))
  end.

Inductive BindResult : Type :=
  | BindOk
  | BindErr (e : error)
  | BindPanic.

(** [MeterRequest.Bind]: a nil [a.Meter] is dereferenced at the second
    statement. *)
Definition Bind (a : MeterRequest) (h : list Meter)
    : BindResult * MeterRequest * list Meter :=
  let a1 := mkMeterRequest (MeterPtr a) (User a) "" in
  match MeterPtr a1 with
  | None => (BindPanic, a1, h)
  | Some p =>
      match h !! p with
      | None => (BindPanic, a1, h)
      | Some m =>
          let '(m', err) := BindMeter m in
          (match err with Some e => BindErr e | None => BindOk end,
           a1, <[p := m']> h)
      end
  end.

(** Whether the [Bind] of the user payload is called and returns an error:
    it is called only when the [User] pointer is not nil. *)
Definition userBindFails (u : option UserPayload) : bool :=
  match u with
  | Some u' => bindUserPayload u'
  | None => false
  end.

(** [render.Bind]: decode and return the decoding error if there is one;
    then the binder of the library runs bottom-up: first the [Bind] of the
    fields of the payload that are binders and not nil (here [User]), and
    only then the [Bind] of the payload itself.  A failing [Bind] of the user
    payload is returned before [MeterRequest.Bind] has run. *)
Definition renderBind (body : Body) (a : MeterRequest) (h : list Meter)
    : BindResult * MeterRequest * list Meter :=
  let '(a1, h1, e) := DecodeJSON body a h in
  if e then (BindErr errDecode, a1, h1)
  else if userBindFails (User a1) then (BindErr errUserBind, a1, h1)
  else Bind a1 h1.

(** *** Persistence mocks (meters.go, 264-306) *)

Definition hasID (h : list Meter) (id : string) (a : loc) : Prop :=
  ID <$> h !! a = Some id.
Definition hasSlug (h : list Meter) (slug : string) (a : loc) : Prop :=
  Slug <$> h !! a = Some slug.

#[global] Instance hasID_dec h id a : Decision (hasID h id a).
Proof. unfold hasID. apply _. Defined.
#[global] Instance hasSlug_dec h slug a : Decision (hasSlug h slug a).
Proof. unfold hasSlug. apply _. Defined.

(** [fmt.Sprintf("%d", n)] for the non-negative [n] of [dbNewMeter]. *)
Definition Sprintf_d (n : nat) : string := pretty n.

(** [r] is the value [rand.Intn(100)] returns. *)
Definition dbNewMeter (meter : loc) (r : nat) (st : State) : State :=
  mkState (store meter (set_ID (Sprintf_d (r + 10))) (heap st))
          (meters st ++ [meter]).

Definition dbGetMeter (id : string) (st : State) : option loc :=
  snd <$> list_find (hasID (heap st) id) (meters st).

Definition dbGetMeterBySlug (slug : string) (st : State) : option loc :=
  snd <$> list_find (hasSlug (heap st) slug) (meters st).

Definition dbUpdateMeter (id : string) (meter : loc) (st : State)
    : option loc * State :=
  match list_find (hasID (heap st) id) (meters st) with
  | Some (i, _) => (Some meter, mkState (heap st) (<[i := meter]> (meters st)))
  | None => (None, st)
  end.

Definition dbRemoveMeter (id : string) (st : State) : option loc * State :=
  match list_find (hasID (heap st) id) (meters st) with
  | Some (i, a) => (Some a, mkState (heap st) (delete i (meters st)))
  | None => (None, st)
  end.

(** *** Handlers *)

(** [render.Render(w, r, NewMeterResponse(meter))] with the status set
    for the request. *)
Definition renderMeter (status : nat) (meter : loc) (st : State)
    : Response * State :=
  match heap st !! meter with
  | Some m => (Rendered status m, st)
  | None => (Panic, st)
  end.

Definition ListMeters (st : State) : Response * State :=
  (RenderedList (records st), st).

(** [chi.URLParam] returns the empty string for a parameter the route
    does not have. *)
Definition MeterCtx (next : loc -> State -> Response * State)
    (meterID meterSlug : string) (st : State) : Response * State :=
  let found :=
    if decide (meterID <> "") then Some (dbGetMeter meterID st)
    else if decide (meterSlug <> "") then Some (dbGetMeterBySlug meterSlug st)
    else None in
  match found with
  | None => (ErrNotFound, st)
  | Some None => (ErrNotFound, st)
  | Some (Some meter) => next meter st
  end.

Definition CreateMeter (body : Body) (r : nat) (st : State) : Response * State :=
  let data := mkMeterRequest None None "" in
  match renderBind body data (heap st) with
  | (BindErr e, _, h) => (ErrInvalidRequest e, mkState h (meters st))
  | (BindPanic, _, h) => (Panic, mkState h (meters st))
  | (BindOk, data', h) =>
      match MeterPtr data' with
      | None => (Panic, mkState h (meters st))
      | Some meter =>
          renderMeter 201 meter (dbNewMeter meter r (mkState h (meters st)))
      end
  end.

Definition GetMeter (meter : loc) (st : State) : Response * State :=
  renderMeter 200 meter st.

Definition UpdateMeter (body : Body) (meter : loc) (st : State)
    : Response * State :=
  let data := mkMeterRequest (Some meter) None "" in
  match renderBind body data (heap st) with
  | (BindErr e, _, h) => (ErrInvalidRequest e, mkState h (meters st))
  | (BindPanic, _, h) => (Panic, mkState h (meters st))
  | (BindOk, data', h) =>
      let st1 := mkState h (meters st) in
      match MeterPtr data' with
      | None => (Panic, st1)
      | Some meter' =>
          match h !! meter' with
          | None => (Panic, st1)
          | Some m => renderMeter 200 meter' (dbUpdateMeter (ID m) meter' st1).2
          end
      end
  end.

Definition DeleteMeter (meter : loc) (st : State) : Response * State :=
  match heap st !! meter with
  | None => (Panic, st)
  | Some m =>
      match dbRemoveMeter (ID m) st with
      | (None, st') => (ErrInvalidRequest errMeterNotFound, st')
      | (Some meter', st') => renderMeter 200 meter' st'
      end
  end.

(** Modelled from the spec: the routing table, which is in another file
    of the package.  The spec lists GET and POST on /meters, GET, PUT and
    DELETE on /meters/{meterID} and GET on /meters/slug/{meterSlug}, the last
    four behind the resolver middleware. *)
Inductive Request : Type :=
  | ReqList
  | ReqCreate (body : Body) (r : nat)
  | ReqGet (meterID : string)
  | ReqGetBySlug (meterSlug : string)
  | ReqUpdate (meterID : string) (body : Body)
  | ReqDelete (meterID : string).

Definition serve (req : Request) (st : State) : Response * State :=
  match req with
  | ReqList => ListMeters st
  | ReqCreate body r => CreateMeter body r st
  | ReqGet meterID => MeterCtx GetMeter meterID "" st
  | ReqGetBySlug meterSlug => MeterCtx GetMeter "" meterSlug st
  | ReqUpdate meterID body => MeterCtx (UpdateMeter body) meterID "" st
  | ReqDelete meterID => MeterCtx DeleteMeter meterID "" st
  end.

(** Requests served one after the other: the responses, and the final
    state. *)
Fixpoint run (reqs : list Request) (st : State) : list Response * State :=
  match reqs with
  | [] => ([], st)
  | req :: reqs' =>
      let '(resp, st1) := serve req st in
      let '(resps, st2) := run reqs' st1 in
      (resp :: resps, st2)
  end.

(** *** Vocabulary of the statements *)

(** The members of a body that decodes to an object; the literal null
    decodes like an object without members. *)
Definition members (body : Body) : list (string * jvalue) :=
  match body with
  | BodyObject kvs => kvs
  | _ => []
  end.

Definition isMeterKey (key : string) : bool :=
  match fieldOf key with
  | Some (FMeter _) => true
  | _ => false
  end.

Definition isIdKey (key : string) : bool :=
  match fieldOf key with
  | Some FProtectedID => true
  | _ => false
  end.

(** The field values a list of members leaves in a Meter: each member of
    a Meter key with a value of the right type overwrites its field. *)
Definition writeMember (m : Meter) (kv : string * jvalue) : Meter :=
  match fieldOf kv.1 with
  | Some (FMeter f) =>
      match decodeMeterField f kv.2 with
      | Some w => w m
      | None => m
      end
  | _ => m
  end.

Definition decodeMeter (kvs : list (string * jvalue)) (m : Meter) : Meter :=
  foldl writeMember m kvs.

(** A body without the members that decode into [ProtectedID]. *)
Definition dropId (body : Body) : Body :=
  match body with
  | BodyObject kvs => BodyObject (filter (fun kv => isIdKey kv.1 = false) kvs)
  | _ => body
  end.

(** A member whose value [ProtectedID] accepts: every member that does
    not decode into [ProtectedID], and the "id" members that are a JSON
    string or null. *)
Definition stringId (kv : string * jvalue) : bool :=
  negb (isIdKey kv.1)
  || match kv.2 with JNull | JStr _ => true | _ => false end.

(** The random draws of the create requests of a sequence. *)
Definition draws (reqs : list Request) : list nat :=
  omap (fun req => match req with ReqCreate _ r => Some r | _ => None end) reqs.

Definition isUpdate (req : Request) : bool :=
  match req with ReqUpdate _ _ => true | _ => false end.

(** The records the create requests of a sequence were answered with,
    and the records its delete requests were answered with. *)
Definition createdBy (pr : Request * Response) : option Meter :=
  match pr with
  | (ReqCreate _ _, Rendered _ m) => Some m
  | _ => None
  end.

Definition deletedBy (pr : Request * Response) : option Meter :=
  match pr with
  | (ReqDelete _, Rendered _ m) => Some m
  | _ => None
  end.

Definition created (reqs : list Request) (resps : list Response) : list Meter :=
  omap createdBy (zip reqs resps).

Definition deleted (reqs : list Request) (resps : list Response) : list Meter :=
  omap deletedBy (zip reqs resps).

(** A pointer of a well-formed state dereferenced. *)
Definition deref (h : list Meter) (p : loc) : Meter :=
  default zeroMeter (h !! p).

(** What one request does to the store. *)
Definition effect (req : Request) (st : State) (resp : Response) (st1 : State)
    : Prop :=
  match req with
  | ReqCreate _ r =>
      (exists m, resp = Rendered 201 m /\ ID m = Sprintf_d (r + 10)
                 /\ records st1 = records st ++ [m])
      \/ ((resp = Panic \/ exists e, resp = ErrInvalidRequest e)
          /\ records st1 = records st)
  | ReqDelete _ =>
      (exists i m, resp = Rendered 200 m /\ records st !! i = Some m
                   /\ records st1 = delete i (records st))
      \/ ((resp = ErrNotFound \/ exists e, resp = ErrInvalidRequest e)
          /\ records st1 = records st)
  | ReqUpdate _ _ => ids st1 = ids st
  | _ => st1 = st
  end.

(** *** The list responses (meters.go, 88-92 and 199-235) *)

(** [type MeterResponse struct]: the wrapped [*Meter]. *)
Record MeterResponse : Type := mkMeterResponse { RespMeter : loc }.

Definition NewMeterResponse (meter : loc) : MeterResponse :=
  mkMeterResponse meter.

(** [NewMeterListResponse]: the loop that appends one response per
    pointer. *)
Definition NewMeterListResponse (ms : list loc) : list MeterResponse :=
  foldl (fun list meter => list ++ [NewMeterResponse meter]) [] ms.

(** [render.RenderList]: [MeterResponse.Render] returns nil for every
    element, then each wrapped Meter is marshalled. *)
Definition RenderList (l : list MeterResponse) (st : State) : Response * State :=
  (RenderedList (omap (fun resp => heap st !! RespMeter resp) l), st).

(** [SearchMeters] (meters.go, 88-92). *)
Definition SearchMeters (st : State) : Response * State :=
  RenderList (NewMeterListResponse (meters st)) st.

(** *** More vocabulary *)

Definition slugs (st : State) : list string := Slug <$> records st.

(** What a successful [Bind] establishes on the record. *)
Definition bound (m : Meter) : Prop :=
  Slug m = ToLower (ProjectName m)
  /\ Duration m <> ""
  /\ ParseDuration (Duration m) = Some (duration m).

(** When a request is answered with Not-Found. *)
Definition misses (req : Request) (st : State) : Prop :=
  match req with
  | ReqGet meterID | ReqUpdate meterID _ | ReqDelete meterID =>
      meterID = "" \/ meterID ∉ ids st
  | ReqGetBySlug meterSlug => meterSlug = "" \/ meterSlug ∉ slugs st
  | ReqList | ReqCreate _ _ => False
  end.

(** The part of the decoder's accumulator that does not depend on the
    heap: the user, the protected ID and the error flag after one member. *)
Definition memberMeta (acc : option UserPayload * string * bool)
    (kv : string * jvalue) : option UserPayload * string * bool :=
  let '(u, pid, e) := acc in
  match fieldOf kv.1 with
  | None => acc
  | Some FProtectedID =>
      match kv.2 with
      | JNull => acc
      | JStr s => (u, s, e)
      | _ => (u, pid, true)
      end
  | Some FUser =>
      let '(u1, e1) := decodeUserPayload kv.2 u in (u1, pid, e || e1)
  | Some (FMeter f) =>
      match decodeMeterField f kv.2 with
      | Some _ => acc
      | None => (u, pid, true)
      end
  end.

Definition bodyMeta (body : Body) : option UserPayload * string * bool :=
  match body with
  | BodyInvalid | BodyNonObject => (None, "", true)
  | BodyNull => (None, "", false)
  | BodyObject kvs => foldl memberMeta (None, "", false) kvs
  end.

(** The result of [render.Bind] on an update of the record [m], and the
    record it leaves. *)
Definition updateResult (body : Body) (m : Meter) : BindResult :=
  let '(u, _, e) := bodyMeta body in
  if e then BindErr errDecode
  else if userBindFails u then BindErr errUserBind
  else
    match (BindMeter (decodeMeter (members body) m)).2 with
    | Some err => BindErr err
    | None => BindOk
    end.

Definition updateRecord (body : Body) (m : Meter) : Meter :=
  if (bodyMeta body).2 || userBindFails (bodyMeta body).1.1
  then decodeMeter (members body) m
  else (BindMeter (decodeMeter (members body) m)).1.

Definition updateResponse (body : Body) (m : Meter) : Response :=
  match updateResult body m with
  | BindOk => Rendered 200 (updateRecord body m)
  | BindErr e => ErrInvalidRequest e
  | BindPanic => Panic
  end.

(** *** The store in the words of the specification

    The specification speaks of the store as a sequence of records: a create
    that binds appends one record, a delete removes the first record with
    the ID, and the listing is what is left, in insertion order.  The
    definitions below follow these words on the records themselves, without
    heap, pointers or responses; C8 compares them with the handlers. *)

(** The binding step of the specification: the slug is the lower-cased
    project name, a blank duration string becomes "1h", and the duration
    string is parsed; no record when it does not parse. *)
Definition specBind (m : Meter) : option Meter :=
  let D := if decide (Duration m = "") then "1h" else Duration m in
  match ParseDuration D with
  | Some d =>
      Some (mkMeter (ID m) (UserID m) (ProjectName m) (OraConnectID m)
              (OraUser m) (OraPassword m) D d (ToLower (ProjectName m)))
  | None => None
  end.

(** The record a create request adds to the store: the fields of the
    body, bound, with the ID made from the draw; none when the body does not
    decode, when the [Bind] of its user fails, when it has no field of the
    Meter, or when the duration does not parse. *)
Definition specCreated (body : Body) (r : nat) : option Meter :=
  if (bodyMeta body).2 || userBindFails (bodyMeta body).1.1
     || negb (existsb (fun kv => isMeterKey kv.1) (members body))
  then None
  else set_ID (Sprintf_d (r + 10))
         <$> specBind (decodeMeter (members body) zeroMeter).

(** The first record with an ID, and the records without it. *)
Fixpoint specFind (id : string) (l : list Meter) : option Meter :=
  match l with
  | [] => None
  | m :: l' => if decide (ID m = id) then Some m else specFind id l'
  end.

Fixpoint specRemove (id : string) (l : list Meter) : list Meter :=
  match l with
  | [] => []
  | m :: l' => if decide (ID m = id) then l' else m :: specRemove id l'
  end.

Definition specCreatedBy (req : Request) : option Meter :=
  match req with
  | ReqCreate body r => specCreated body r
  | _ => None
  end.

Definition specRemovedBy (req : Request) (l : list Meter) : option Meter :=
  match req with
  | ReqDelete meterID => specFind meterID l
  | _ => None
  end.

(** What a create, a delete or a read does to the records. *)
Definition specStep (l : list Meter) (req : Request) : list Meter :=
  match req with
  | ReqCreate body r => l ++ option_list (specCreated body r)
  | ReqDelete meterID => specRemove meterID l
  | _ => l
  end.

(** The surviving records after a sequence of requests, the records its
    creates added and the records its deletes removed. *)
Fixpoint survivors (reqs : list Request) (l : list Meter) : list Meter :=
  match reqs with
  | [] => l
  | req :: reqs' => survivors reqs' (specStep l req)
  end.

Definition createdRecords (reqs : list Request) : list Meter :=
  omap specCreatedBy reqs.

Fixpoint removedRecords (reqs : list Request) (l : list Meter) : list Meter :=
  match reqs with
  | [] => []
  | req :: reqs' =>
      option_list (specRemovedBy req l) ++ removedRecords reqs' (specStep l req)
  end.

(** A projection of the Meter that a function either leaves alone or
    sets to a constant. *)
Definition constOrId {A : Type} (proj : Meter -> A) (f : Meter -> Meter) : Prop :=
  (forall x, proj (f x) = proj x) \/ (exists c, forall x, proj (f x) = c).

Definition defaultDuration (s : string) : string :=
  if decide (s = "") then "1h" else s.

(** ** Heap and decoder lemmas *)

Lemma store_lookup p w h m :
  h !! p = Some m -> store p w h = <[p := w m]> h.
Proof. intros H. unfold store. by rewrite H. Qed.

Lemma decodeMeterField_ID f v w m :
  decodeMeterField f v = Some w -> ID (w m) = ID m.
Proof.
  destruct f, v; simpl; intros H; try discriminate;
    try (injection H as <-; reflexivity).
  destruct (int64_ok n); [injection H as <-; reflexivity | discriminate].
Qed.

Lemma writeMember_ID m kv : ID (writeMember m kv) = ID m.
Proof.
  unfold writeMember. destruct (fieldOf kv.1) as [[f| |]|]; try reflexivity.
  destruct (decodeMeterField f kv.2) eqn:E; [|reflexivity].
  eapply decodeMeterField_ID, E.
Qed.

Lemma decodeMeter_cons kv kvs m :
  decodeMeter (kv :: kvs) m = decodeMeter kvs (writeMember m kv).
Proof. reflexivity. Qed.

Lemma decodeMeter_ID kvs m : ID (decodeMeter kvs m) = ID m.
Proof.
  unfold decodeMeter. revert m.
  induction kvs as [|kv kvs IH]; intros m; simpl; [reflexivity|].
  rewrite IH. apply writeMember_ID.
Qed.

(** Decoding through a Meter pointer that is not nil writes the members
    in place and leaves the pointer as it is. *)
Lemma decode_ptr p kvs : forall u pid e h m,
  h !! p = Some m ->
  exists u' pid' e',
    foldl decodeMember (mkMeterRequest (Some p) u pid, h, e) kvs
    = (mkMeterRequest (Some p) u' pid', <[p := decodeMeter kvs m]> h, e')
    /\ (e = true -> e' = true).
Proof.
  induction kvs as [|kv kvs IH]; intros u pid e h m Hm.
  - exists u, pid, e. simpl. by rewrite list_insert_id.
  - assert (Hstep : exists u1 pid1 e1,
               decodeMember (mkMeterRequest (Some p) u pid, h, e) kv
               = (mkMeterRequest (Some p) u1 pid1,
                  <[p := writeMember m kv]> h, e1)
               /\ (e = true -> e1 = true)).
    { unfold decodeMember, writeMember.
      destruct (fieldOf kv.1) as [[f| |]|]; simpl.
      - destruct (decodeMeterField f kv.2) as [w|].
        + exists u, pid, e. by rewrite (store_lookup _ _ _ _ Hm).
        + exists u, pid, true. by rewrite list_insert_id.
      - destruct (decodeUserPayload kv.2 u) as [u1 e1].
        exists u1, pid, (e || e1). rewrite list_insert_id by done.
        split; [done|]. by intros ->.
      - destruct kv.2; rewrite list_insert_id by done; eauto 6.
      - rewrite list_insert_id by done. eauto 6. }
    destruct Hstep as (u1 & pid1 & e1 & Hstep & He1).
    assert (Hm1 : <[p := writeMember m kv]> h !! p = Some (writeMember m kv)).
    { apply list_lookup_insert_eq. by eapply lookup_lt_Some. }
    destruct (IH u1 pid1 e1 _ _ Hm1) as (u' & pid' & e' & Hrest & He').
    exists u', pid', e'. cbn [foldl]. rewrite Hstep, Hrest, decodeMeter_cons.
    rewrite list_insert_insert_eq. split; [done | auto].
Qed.

Lemma insert_snoc (h : list Meter) x y :
  <[length h := x]> (h ++ [y]) = h ++ [x].
Proof.
  rewrite insert_app_r_alt by lia. by rewrite Nat.sub_diag.
Qed.

Lemma lookup_snoc (h : list Meter) x : (h ++ [x]) !! length h = Some x.
Proof. by rewrite list_lookup_middle. Qed.

Lemma decodeMember_nil_meter kv f u pid e h :
  fieldOf kv.1 = Some (FMeter f) ->
  exists e1,
    (e = true -> e1 = true) /\
    decodeMember (mkMeterRequest None u pid, h, e) kv
    = (mkMeterRequest (Some (length h)) u pid,
       h ++ [writeMember zeroMeter kv], e1).
Proof.
  intros Hf. unfold decodeMember, writeMember. rewrite Hf. simpl.
  destruct (decodeMeterField f kv.2) as [w|].
  - exists e. split; [done|].
    by rewrite (store_lookup _ _ _ _ (lookup_snoc h zeroMeter)), insert_snoc.
  - by exists true.
Qed.

Lemma decodeMember_nil_other kv u pid e h :
  isMeterKey kv.1 = false ->
  exists u1 pid1 e1,
    (e = true -> e1 = true) /\
    decodeMember (mkMeterRequest None u pid, h, e) kv
    = (mkMeterRequest None u1 pid1, h, e1).
Proof.
  unfold isMeterKey, decodeMember.
  destruct (fieldOf kv.1) as [[f| |]|]; intros Hk; try discriminate; simpl.
  - destruct (decodeUserPayload kv.2 u) as [u1 e1].
    exists u1, pid, (e || e1). split; [by intros ->|done].
  - destruct kv.2; eauto 6.
  - eauto 6.
Qed.

Lemma writeMember_other kv m : isMeterKey kv.1 = false -> writeMember m kv = m.
Proof.
  unfold isMeterKey, writeMember.
  by destruct (fieldOf kv.1) as [[f| |]|].
Qed.

(** Decoding into a payload whose Meter pointer is nil: the pointer stays
    nil and the heap is untouched unless a member has a Meter key; the
    first such member allocates the Meter. *)
Lemma decode_nil kvs : forall u pid e h,
  exists u' pid' e',
    (e = true -> e' = true) /\
    foldl decodeMember (mkMeterRequest None u pid, h, e) kvs
    = if existsb (fun kv => isMeterKey kv.1) kvs
      then (mkMeterRequest (Some (length h)) u' pid',
            h ++ [decodeMeter kvs zeroMeter], e')
      else (mkMeterRequest None u' pid', h, e').
Proof.
  induction kvs as [|kv kvs IH]; intros u pid e h.
  - exists u, pid, e. by simpl.
  - cbn [foldl existsb].
    destruct (isMeterKey kv.1) eqn:Hk; cbn [orb].
    + assert (exists f, fieldOf kv.1 = Some (FMeter f)) as [f Hf].
      { unfold isMeterKey in Hk.
        destruct (fieldOf kv.1) as [[f| |]|]; try discriminate. by exists f. }
      destruct (decodeMember_nil_meter kv f u pid e h Hf) as (e1 & He1 & Hstep).
      destruct (decode_ptr (length h) kvs u pid e1 _ _
                  (lookup_snoc h (writeMember zeroMeter kv)))
        as (u' & pid' & e' & Hrest & He').
      exists u', pid', e'. split; [auto|].
      rewrite Hstep, Hrest, insert_snoc. reflexivity.
    + destruct (decodeMember_nil_other kv u pid e h Hk)
        as (u1 & pid1 & e1 & He1 & Hstep).
      destruct (IH u1 pid1 e1 h) as (u' & pid' & e' & He' & Hrest).
      exists u', pid', e'. split; [auto|].
      rewrite Hstep, Hrest, decodeMeter_cons.
      rewrite (writeMember_other _ _ Hk). reflexivity.
Qed.

Lemma BindMeter_ID m : ID (BindMeter m).1 = ID m.
Proof.
  unfold BindMeter.
  destruct (decide _); destruct (ParseDuration _); reflexivity.
Qed.


Lemma Bind_ptr p u pid h m :
  h !! p = Some m ->
  Bind (mkMeterRequest (Some p) u pid) h
  = (match (BindMeter m).2 with Some e => BindErr e | None => BindOk end,
     mkMeterRequest (Some p) u "", <[p := (BindMeter m).1]> h).
Proof.
  intros H. unfold Bind. simpl. rewrite H.
  by destruct (BindMeter m).
Qed.

(** ** Records of a well-formed store *)

Lemma records_deref h ms :
  Forall (fun p => (p < length h)%nat) ms ->
  records (mkState h ms) = deref h <$> ms.
Proof.
  unfold records. cbn [heap meters]. induction 1 as [|p ms Hp _ IH]; [done|].
  cbn [omap list_omap fmap list_fmap]. rewrite <- IH. unfold deref.
  destruct (lookup_lt_is_Some_2 h p Hp) as [m ->]. done.
Qed.

Lemma deref_app h x p : (p < length h)%nat -> deref (h ++ x) p = deref h p.
Proof. intros Hp. unfold deref. by rewrite lookup_app_l. Qed.

Lemma records_heap_app h x ms :
  Forall (fun p => (p < length h)%nat) ms ->
  records (mkState (h ++ x) ms) = records (mkState h ms).
Proof.
  intros Hwf. rewrite !records_deref; [|done|].
  - apply Forall_fmap_ext. eapply Forall_impl; [exact Hwf|].
    intros p Hp. by apply deref_app.
  - eapply Forall_impl; [exact Hwf|]. intros p Hp. simpl in *.
    rewrite length_app. lia.
Qed.

Lemma records_snoc h m ms :
  Forall (fun p => (p < length h)%nat) ms ->
  records (mkState (h ++ [m]) (ms ++ [length h]))
  = records (mkState h ms) ++ [m].
Proof.
  intros Hwf. unfold records at 1. simpl. rewrite omap_app.
  change (omap (fun p => (h ++ [m]) !! p) ms)
    with (records (mkState (h ++ [m]) ms)).
  rewrite records_heap_app by done. simpl. by rewrite lookup_snoc.
Qed.

Lemma ids_insert_heap h ms p m m' :
  Forall (fun q => (q < length h)%nat) ms ->
  h !! p = Some m -> ID m' = ID m ->
  ids (mkState (<[p := m']> h) ms) = ids (mkState h ms).
Proof.
  intros Hwf Hp HID. unfold ids.
  rewrite !records_deref; [|done|by rewrite length_insert].
  rewrite <- !list_fmap_compose. apply Forall_fmap_ext.
  eapply Forall_impl; [exact Hwf|]. intros q Hq. simpl. unfold deref.
  destruct (decide (q = p)) as [->|Hne].
  - rewrite list_lookup_insert_eq by (by eapply lookup_lt_Some).
    rewrite Hp. done.
  - by rewrite list_lookup_insert_ne.
Qed.

Lemma ids_insert_meters h ms i p q id :
  Forall (fun q => (q < length h)%nat) ms ->
  ms !! i = Some q -> hasID h id q -> hasID h id p ->
  ids (mkState h (<[i := p]> ms)) = ids (mkState h ms).
Proof.
  intros Hwf Hi Hq Hp. unfold ids.
  assert (Hplt : (p < length h)%nat).
  { unfold hasID in Hp. destruct (h !! p) eqn:E; [|done].
    by eapply lookup_lt_Some. }
  rewrite !records_deref; [|done|].
  - rewrite <- !list_fmap_compose, list_fmap_insert.
    apply list_insert_id. rewrite list_lookup_fmap, Hi. simpl.
    unfold hasID in *. unfold deref.
    destruct (h !! p); [|done]. destruct (h !! q); [|done].
    simpl in *. congruence.
  - apply Forall_insert; done.
Qed.

Lemma list_find_hasID h ms id i a :
  list_find (hasID h id) ms = Some (i, a) ->
  ms !! i = Some a /\ exists m, h !! a = Some m /\ ID m = id.
Proof.
  intros H. apply list_find_Some in H as (Hi & Ha & _).
  split; [done|]. unfold hasID in Ha.
  destruct (h !! a) as [m|]; [|done]. exists m. split; [done|].
  simpl in Ha. congruence.
Qed.

(** ** The decoder in closed form *)

Lemma decodeMember_ptr_meta p kv u pid e h m :
  h !! p = Some m ->
  decodeMember (mkMeterRequest (Some p) u pid, h, e) kv
  = (mkMeterRequest (Some p) (memberMeta (u, pid, e) kv).1.1
       (memberMeta (u, pid, e) kv).1.2,
     <[p := writeMember m kv]> h, (memberMeta (u, pid, e) kv).2).
Proof.
  intros Hm. unfold decodeMember, memberMeta, writeMember.
  destruct (fieldOf kv.1) as [[f| |]|]; cbn [MeterPtr User ProtectedID].
  - destruct (decodeMeterField f kv.2) as [w|]; cbn [fst snd].
    + by rewrite (store_lookup _ _ _ _ Hm).
    + by rewrite list_insert_id.
  - destruct (decodeUserPayload kv.2 u) as [u1 e1]. cbn [fst snd].
    by rewrite list_insert_id.
  - destruct kv.2; cbn [fst snd]; by rewrite list_insert_id.
  - cbn [fst snd]. by rewrite list_insert_id.
Qed.

Lemma decode_ptr_meta p kvs : forall u pid e h m,
  h !! p = Some m ->
  foldl decodeMember (mkMeterRequest (Some p) u pid, h, e) kvs
  = (mkMeterRequest (Some p) (foldl memberMeta (u, pid, e) kvs).1.1
       (foldl memberMeta (u, pid, e) kvs).1.2,
     <[p := decodeMeter kvs m]> h, (foldl memberMeta (u, pid, e) kvs).2).
Proof.
  induction kvs as [|kv kvs IH]; intros u pid e h m Hm.
  - cbn [foldl fst snd]. unfold decodeMeter. cbn [foldl].
    by rewrite list_insert_id.
  - cbn [foldl]. rewrite (decodeMember_ptr_meta _ _ _ _ _ _ _ Hm).
    destruct (memberMeta (u, pid, e) kv) as [[u1 pid1] e1]. cbn [fst snd].
    rewrite (IH u1 pid1 e1 _ (writeMember m kv)).
    + by rewrite list_insert_insert_eq, decodeMeter_cons.
    + apply list_lookup_insert_eq. by eapply lookup_lt_Some.
Qed.

Lemma DecodeJSON_ptr_meta body p h m :
  h !! p = Some m ->
  DecodeJSON body (mkMeterRequest (Some p) None "") h
  = (mkMeterRequest (Some p) (bodyMeta body).1.1 (bodyMeta body).1.2,
     <[p := decodeMeter (members body) m]> h, (bodyMeta body).2).
Proof.
  intros Hm. destruct body as [| | |kvs]; cbn [DecodeJSON bodyMeta members fst snd];
    try (unfold decodeMeter; cbn [foldl]; by rewrite list_insert_id).
  by apply decode_ptr_meta.
Qed.

Lemma decodeMember_nil_meta kv u pid e h :
  decodeMember (mkMeterRequest None u pid, h, e) kv
  = if isMeterKey kv.1
    then (mkMeterRequest (Some (length h)) (memberMeta (u, pid, e) kv).1.1
            (memberMeta (u, pid, e) kv).1.2,
          h ++ [writeMember zeroMeter kv], (memberMeta (u, pid, e) kv).2)
    else (mkMeterRequest None (memberMeta (u, pid, e) kv).1.1
            (memberMeta (u, pid, e) kv).1.2,
          h, (memberMeta (u, pid, e) kv).2).
Proof.
  unfold decodeMember, memberMeta, writeMember, isMeterKey.
  destruct (fieldOf kv.1) as [[f| |]|]; cbn [MeterPtr User ProtectedID alloc].
  - destruct (decodeMeterField f kv.2) as [w|]; cbn [fst snd]; [|done].
    by rewrite (store_lookup _ _ _ _ (lookup_snoc h zeroMeter)), insert_snoc.
  - by destruct (decodeUserPayload kv.2 u) as [u1 e1].
  - by destruct kv.2.
  - done.
Qed.

(** Decoding into a payload whose Meter pointer is nil, in closed form. *)
Lemma decode_nil_meta kvs : forall u pid e h,
  foldl decodeMember (mkMeterRequest None u pid, h, e) kvs
  = if existsb (fun kv => isMeterKey kv.1) kvs
    then (mkMeterRequest (Some (length h)) (foldl memberMeta (u, pid, e) kvs).1.1
            (foldl memberMeta (u, pid, e) kvs).1.2,
          h ++ [decodeMeter kvs zeroMeter], (foldl memberMeta (u, pid, e) kvs).2)
    else (mkMeterRequest None (foldl memberMeta (u, pid, e) kvs).1.1
            (foldl memberMeta (u, pid, e) kvs).1.2,
          h, (foldl memberMeta (u, pid, e) kvs).2).
Proof.
  induction kvs as [|kv kvs IH]; intros u pid e h; [done|].
  cbn [foldl existsb]. rewrite decodeMember_nil_meta.
  destruct (memberMeta (u, pid, e) kv) as [[u1 pid1] e1]. cbn [fst snd].
  destruct (isMeterKey kv.1) eqn:Hk; cbn [orb].
  - rewrite (decode_ptr_meta _ _ _ _ _ _ _ (lookup_snoc h _)).
    by rewrite insert_snoc, decodeMeter_cons.
  - rewrite IH, decodeMeter_cons. by rewrite (writeMember_other _ _ Hk).
Qed.

Lemma DecodeJSON_nil_meta body h :
  DecodeJSON body (mkMeterRequest None None "") h
  = if existsb (fun kv => isMeterKey kv.1) (members body)
    then (mkMeterRequest (Some (length h)) (bodyMeta body).1.1 (bodyMeta body).1.2,
          h ++ [decodeMeter (members body) zeroMeter], (bodyMeta body).2)
    else (mkMeterRequest None (bodyMeta body).1.1 (bodyMeta body).1.2,
          h, (bodyMeta body).2).
Proof.
  destruct body as [| | |kvs]; cbn [DecodeJSON bodyMeta members existsb fst snd];
    try done.
  apply decode_nil_meta.
Qed.

(** ** The handlers, one request at a time *)

Lemma DecodeJSON_nil body h :
  exists u pid e,
    DecodeJSON body (mkMeterRequest None None "") h
    = if existsb (fun kv => isMeterKey kv.1) (members body)
      then (mkMeterRequest (Some (length h)) u pid,
            h ++ [decodeMeter (members body) zeroMeter], e)
      else (mkMeterRequest None u pid, h, e).
Proof.
  destruct body as [| | |kvs]; simpl; eauto.
  destruct (decode_nil kvs None "" false h) as (u & pid & e & _ & H).
  eauto.
Qed.

(** A create request either appends one freshly allocated record, which
    carries the drawn ID, or fails and leaves every record of the store as
    it was (a Meter allocated by the decoder may be left behind,
    unreachable). *)
Lemma CreateMeter_cases body r st :
  (exists m,
      CreateMeter body r st
      = (Rendered 201 m,
         mkState (heap st ++ [m]) (meters st ++ [length (heap st)]))
      /\ m = set_ID (Sprintf_d (r + 10))
               (BindMeter (decodeMeter (members body) zeroMeter)).1
      /\ (BindMeter (decodeMeter (members body) zeroMeter)).2 = None)
  \/ (exists resp h',
      CreateMeter body r st = (resp, mkState h' (meters st))
      /\ (h' = heap st \/ exists x, h' = heap st ++ [x])
      /\ (resp = Panic
             /\ existsb (fun kv => isMeterKey kv.1) (members body) = false
          \/ exists e, resp = ErrInvalidRequest e)).
Proof.
  unfold CreateMeter, renderBind.
  destruct (DecodeJSON_nil body (heap st)) as (u & pid & e & ->).
  destruct (existsb _ (members body)).
  - destruct e; [right; eauto 10|]. cbn [User].
    destruct (userBindFails u); [right; eauto 10|].
    rewrite (Bind_ptr _ _ _ _ _ (lookup_snoc _ _)), insert_snoc.
    set (dm := decodeMeter (members body) zeroMeter).
    destruct (BindMeter dm) as [m' [err|]] eqn:HB; cbn [fst snd].
    + right. eauto 10.
    + assert (Hnew : renderMeter 201 (length (heap st))
                (dbNewMeter (length (heap st)) r
                   (mkState (heap st ++ [m']) (meters st)))
              = (Rendered 201 (set_ID (Sprintf_d (r + 10)) m'),
                 mkState (heap st ++ [set_ID (Sprintf_d (r + 10)) m'])
                         (meters st ++ [length (heap st)]))).
      { unfold dbNewMeter, renderMeter. cbn [heap meters].
        rewrite (store_lookup _ _ _ _ (lookup_snoc _ _)), insert_snoc.
        by rewrite lookup_snoc. }
      left. cbn [MeterPtr]. rewrite Hnew. eauto.
  - destruct e; [right; eauto 10|]. cbn [User].
    destruct (userBindFails u); [right; eauto 10|].
    right. unfold Bind. cbn [MeterPtr]. eauto 10.
Qed.

Lemma DecodeJSON_ptr body p h m :
  h !! p = Some m ->
  exists u pid e,
    DecodeJSON body (mkMeterRequest (Some p) None "") h
    = (mkMeterRequest (Some p) u pid,
       <[p := decodeMeter (members body) m]> h, e).
Proof.
  intros Hp.
  destruct body as [| | |kvs]; simpl;
    try (rewrite list_insert_id by done; eauto).
  destruct (decode_ptr p kvs None "" false h m Hp) as (u & pid & e & H & _).
  eauto.
Qed.

(** Binding an update request: all the writes go to the resolved record,
    none of them to its ID, and the pointer of the payload is the resolved
    one. *)
Lemma renderBind_ptr body p h m :
  h !! p = Some m ->
  exists res u pid m',
    renderBind body (mkMeterRequest (Some p) None "") h
    = (res, mkMeterRequest (Some p) u pid, <[p := m']> h)
    /\ ID m' = ID m /\ res <> BindPanic.
Proof.
  intros Hp. unfold renderBind.
  destruct (DecodeJSON_ptr body p h m Hp) as (u & pid & e & ->).
  set (dm := decodeMeter (members body) m).
  assert (HID : ID dm = ID m) by apply decodeMeter_ID.
  assert (Hdm : <[p := dm]> h !! p = Some dm).
  { apply list_lookup_insert_eq. by eapply lookup_lt_Some. }
  destruct e.
  - exists (BindErr errDecode), u, pid, dm. done.
  - cbn [User]. destruct (userBindFails u).
    + exists (BindErr errUserBind), u, pid, dm. done.
    + rewrite (Bind_ptr _ _ _ _ _ Hdm), list_insert_insert_eq.
      pose proof (BindMeter_ID dm) as HB.
      destruct (BindMeter dm) as [m' [err|]]; cbn [fst snd] in *.
      * exists (BindErr err), u, "", m'. split; [done|]. split; [congruence|done].
      * exists BindOk, u, "", m'. split; [done|]. split; [congruence|done].
Qed.

Lemma wf_heap_insert h ms p m :
  wf (mkState h ms) -> wf (mkState (<[p := m]> h) ms).
Proof. unfold wf. cbn [heap meters]. by rewrite length_insert. Qed.

(** An update leaves the IDs of the store as they are, whatever its
    outcome. *)
Lemma UpdateMeter_effect body p st m :
  wf st -> heap st !! p = Some m ->
  exists resp st1,
    UpdateMeter body p st = (resp, st1) /\ wf st1 /\ ids st1 = ids st.
Proof.
  destruct st as [h ms]. cbn [heap]. intros Hwf Hp.
  unfold UpdateMeter. cbn [heap meters].
  destruct (renderBind_ptr body p h m Hp)
    as (res & u & pid & m' & -> & HID & Hres).
  assert (Hwf1 : wf (mkState (<[p := m']> h) ms)) by by apply wf_heap_insert.
  assert (Hids1 : ids (mkState (<[p := m']> h) ms) = ids (mkState h ms))
    by by eapply ids_insert_heap.
  assert (Hm' : <[p := m']> h !! p = Some m').
  { apply list_lookup_insert_eq. by eapply lookup_lt_Some. }
  destruct res as [|e|]; [|by eauto|done].
  cbn [MeterPtr]. rewrite Hm'. unfold dbUpdateMeter. cbn [heap meters].
  destruct (list_find _ ms) as [[i q]|] eqn:Hfind; cbn [snd].
  - unfold renderMeter. cbn [heap]. rewrite Hm'.
    apply list_find_Some in Hfind as (Hi & Hq & _).
    do 2 eexists. split; [reflexivity|]. split.
    + unfold wf in *. cbn [heap meters] in *.
      apply Forall_insert; [done|]. by eapply lookup_lt_Some.
    + rewrite <- Hids1. eapply ids_insert_meters; [exact Hwf1|exact Hi|exact Hq|].
      unfold hasID. by rewrite Hm'.
  - unfold renderMeter. cbn [heap]. rewrite Hm'. eauto.
Qed.

Lemma records_delete h ms i :
  Forall (fun p => (p < length h)%nat) ms ->
  records (mkState h (delete i ms)) = delete i (records (mkState h ms)).
Proof.
  intros Hwf. rewrite !records_deref; [|done|by apply Forall_delete].
  apply list_fmap_delete.
Qed.

Lemma not_found_not_in_ids st id :
  list_find (hasID (heap st) id) (meters st) = None -> id ∉ ids st.
Proof.
  intros Hnone Hin. apply list_find_None in Hnone.
  unfold ids, records in Hin.
  apply list_elem_of_fmap in Hin as (m & -> & Hm).
  apply list_elem_of_omap in Hm as (p & Hp & Hlook).
  rewrite Forall_forall in Hnone. apply (Hnone p Hp).
  unfold hasID. by rewrite Hlook.
Qed.


(** A delete removes the first record that has the ID of the resolved
    one and answers with it, or answers Invalid-Request and changes
    nothing. *)
Lemma DeleteMeter_cases p st m :
  wf st -> heap st !! p = Some m ->
  (exists i ma,
      DeleteMeter p st
      = (Rendered 200 ma, mkState (heap st) (delete i (meters st)))
      /\ records st !! i = Some ma /\ ID ma = ID m)
  \/ (DeleteMeter p st = (ErrInvalidRequest errMeterNotFound, st)
      /\ ID m ∉ ids st).
Proof.
  destruct st as [h ms]. cbn [heap meters]. intros Hwf Hp.
  unfold DeleteMeter, dbRemoveMeter. cbn [heap meters]. rewrite Hp.
  destruct (list_find _ ms) as [[i a]|] eqn:Hfind.
  - left. destruct (list_find_hasID _ _ _ _ _ Hfind) as (Hi & ma & Ha & HID).
    exists i, ma. unfold renderMeter. cbn [heap]. rewrite Ha.
    split; [done|]. split; [|done].
    rewrite records_deref by done. rewrite list_lookup_fmap, Hi.
    simpl. unfold deref. by rewrite Ha.
  - right. split; [done|].
    by apply (not_found_not_in_ids (mkState h ms)).
Qed.

Lemma wf_delete h ms i : wf (mkState h ms) -> wf (mkState h (delete i ms)).
Proof. unfold wf. cbn [heap meters]. apply Forall_delete. Qed.

Lemma dbGetMeter_Some id st p :
  dbGetMeter id st = Some p ->
  exists i m, list_find (hasID (heap st) id) (meters st) = Some (i, p)
              /\ heap st !! p = Some m /\ ID m = id.
Proof.
  unfold dbGetMeter. destruct (list_find _ _) as [[i a]|] eqn:E; [|done].
  intros [= <-]. destruct (list_find_hasID _ _ _ _ _ E) as (_ & m & H1 & H2).
  eauto.
Qed.

Lemma renderMeter_state status p st : (renderMeter status p st).2 = st.
Proof. unfold renderMeter. by destruct (heap st !! p). Qed.

Lemma MeterCtx_GetMeter_state meterID meterSlug st :
  (MeterCtx GetMeter meterID meterSlug st).2 = st.
Proof.
  unfold MeterCtx, GetMeter.
  repeat case_decide; try done;
    match goal with |- context [match ?x with _ => _ end] => destruct x end;
    try done; apply renderMeter_state.
Qed.

Lemma serve_effect req st :
  wf st -> wf (serve req st).2 /\ effect req st (serve req st).1 (serve req st).2.
Proof.
  intros Hwf. destruct req as [|body r|meterID|meterSlug|meterID body|meterID];
    cbn [serve effect].
  - done.
  - destruct st as [h ms].
    destruct (CreateMeter_cases body r (mkState h ms))
      as [(m & -> & Hm & _)|(resp & h' & -> & Hh' & Hresp)];
      cbn [fst snd heap meters] in *.
    + split.
      * unfold wf in *. cbn [heap meters] in *. rewrite length_app. simpl.
        apply Forall_app. split.
        -- eapply Forall_impl; [exact Hwf|]. simpl. lia.
        -- apply Forall_singleton. lia.
      * left. exists m. split; [done|]. split; [by rewrite Hm|].
        by apply records_snoc.
    + assert (Hresp' : resp = Panic \/ exists e, resp = ErrInvalidRequest e)
        by (destruct Hresp as [[-> _]|?]; auto).
      destruct Hh' as [->|[x ->]].
      * split; [done|]. right. done.
      * split.
        -- unfold wf in *. cbn [heap meters] in *. rewrite length_app.
           eapply Forall_impl; [exact Hwf|]. simpl. lia.
        -- right. split; [done|]. by apply records_heap_app.
  - split; [by rewrite MeterCtx_GetMeter_state|apply MeterCtx_GetMeter_state].
  - split; [by rewrite MeterCtx_GetMeter_state|apply MeterCtx_GetMeter_state].
  - unfold MeterCtx. case_decide; [|done].
    destruct (dbGetMeter meterID st) as [p|] eqn:Hget; [|done].
    destruct (dbGetMeter_Some _ _ _ Hget) as (i & m & _ & Hp & _).
    destruct (UpdateMeter_effect body p st m Hwf Hp) as (resp & st1 & -> & ? & ?).
    done.
  - unfold MeterCtx. case_decide; [|split; [done|right; eauto]].
    destruct (dbGetMeter meterID st) as [p|] eqn:Hget;
      [|split; [done|right; eauto]].
    destruct (dbGetMeter_Some _ _ _ Hget) as (i & m & _ & Hp & _).
    destruct (DeleteMeter_cases p st m Hwf Hp)
      as [(j & ma & -> & Hj & _)|[-> _]]; cbn [fst snd].
    + split; [destruct st; by apply wf_delete|].
      left. exists j, ma. split; [done|]. split; [done|].
      destruct st. by apply records_delete.
    + split; [done|]. right. eauto.
Qed.

(** ** Sequences of requests *)

Lemma run_cons req reqs st :
  run (req :: reqs) st
  = ((serve req st).1 :: (run reqs (serve req st).2).1,
     (run reqs (serve req st).2).2).
Proof.
  cbn [run]. destruct (serve req st) as [resp st1]. cbn [fst snd].
  destruct (run reqs st1) as [resps st2]. reflexivity.
Qed.

Lemma Sprintf_d_inj n n' : Sprintf_d n = Sprintf_d n' -> n = n'.
Proof. unfold Sprintf_d. apply (inj pretty). Qed.

Lemma ids_app_records st st1 m :
  records st1 = records st ++ [m] -> ids st1 = ids st ++ [ID m].
Proof. unfold ids. intros ->. by rewrite fmap_app. Qed.

(** The invariant behind the uniqueness of IDs: the IDs of the store are
    pairwise distinct and none of them is the ID a later create will
    draw. *)
Lemma run_ids_NoDup reqs : forall st,
  wf st -> NoDup (ids st) -> NoDup (draws reqs) ->
  (forall r, r ∈ draws reqs -> Sprintf_d (r + 10) ∉ ids st) ->
  NoDup (ids (run reqs st).2).
Proof.
  induction reqs as [|req reqs IH]; intros st Hwf Hnd Hdr Hfresh; [done|].
  rewrite run_cons. cbn [snd].
  destruct (serve_effect req st Hwf) as [Hwf1 Heff].
  set (st1 := (serve req st).2) in *. set (resp := (serve req st).1) in *.
  destruct req as [|body r|meterID|meterSlug|meterID body|meterID];
    cbn [effect draws omap list_omap] in *;
    try (rewrite Heff; by apply IH).
  - fold (draws reqs) in *. apply NoDup_cons in Hdr as [Hr Hdr].
    destruct Heff as [(m & _ & HID & Hrec)|[_ Hrec]].
    + apply ids_app_records in Hrec. rewrite HID in Hrec.
      apply IH; [done| |done|].
      * rewrite Hrec. apply NoDup_app. split; [done|]. split.
        -- intros x Hx Hx'. apply list_elem_of_singleton in Hx'. subst x.
           apply (Hfresh r); [left|done].
        -- apply NoDup_singleton.
      * intros r' Hr'. rewrite Hrec. rewrite elem_of_app.
        intros [Hin|Hin].
        -- apply (Hfresh r'); [by right|done].
        -- apply list_elem_of_singleton, Sprintf_d_inj in Hin.
           assert (r' = r) by lia. by subst.
    + assert (Hids : ids st1 = ids st) by (unfold ids; by rewrite Hrec).
      apply IH; [done|by rewrite Hids|done|].
      intros r' Hr'. rewrite Hids. apply Hfresh. by right.
  - fold (draws reqs) in *.
    apply IH; [done|by rewrite Heff|done|].
    intros r' Hr'. rewrite Heff. by apply Hfresh.
  - fold (draws reqs) in *.
    destruct Heff as [(i & m & _ & Hi & Hrec)|[_ Hrec]].
    + assert (Hids : ids st1 = delete i (ids st)).
      { unfold ids. rewrite Hrec. apply list_fmap_delete. }
      apply IH; [done| |done|].
      * rewrite Hids. exact (sublist_NoDup _ _ Hnd (sublist_delete _ _)).
      * intros r' Hr' Hin. rewrite Hids in Hin.
        apply list_elem_of_delete_inv in Hin. by apply (Hfresh r').
    + assert (Hids : ids st1 = ids st) by (unfold ids; by rewrite Hrec).
      apply IH; [done|by rewrite Hids|done|].
      intros r' Hr'. rewrite Hids. by apply Hfresh.
Qed.

Lemma wf_initState : wf initState.
Proof. unfold wf. simpl. repeat constructor. Qed.

Lemma ids_initState :
  ids initState = Sprintf_d <$> [1; 2; 3; 4; 5]%nat.
Proof. reflexivity. Qed.

(** The invariant behind the listing: the records of the store and the
    records deleted so far make up the records the store started with and
    the records created so far, and the store keeps them in that order. *)
Lemma run_records reqs : forall st,
  wf st -> Forall (fun req => isUpdate req = false) reqs ->
  records (run reqs st).2 ++ deleted reqs (run reqs st).1
    ≡ₚ records st ++ created reqs (run reqs st).1
  /\ records (run reqs st).2
       `sublist_of` records st ++ created reqs (run reqs st).1.
Proof.
  induction reqs as [|req reqs IH]; intros st Hwf Hreqs.
  - simpl. unfold created, deleted. simpl. by rewrite !app_nil_r.
  - apply Forall_cons in Hreqs as [Hreq Hreqs].
    rewrite run_cons. cbn [fst snd].
    destruct (serve_effect req st Hwf) as [Hwf1 Heff].
    set (st1 := (serve req st).2) in *. set (resp := (serve req st).1) in *.
    destruct (IH st1 Hwf1 Hreqs) as [IHp IHs].
    set (fin := records (run reqs st1).2) in *.
    set (resps := (run reqs st1).1) in *.
    unfold created, deleted in *. cbn [zip zip_with omap list_omap].
    destruct req as [|body r|meterID|meterSlug|meterID body|meterID];
      cbn [effect isUpdate createdBy deletedBy] in *; try discriminate;
      try (rewrite Heff in *; done).
    + destruct Heff as [(m & -> & _ & Hrec)|[Hresp Hrec]].
      * rewrite Hrec, <- app_assoc in IHp, IHs. done.
      * rewrite Hrec in IHp, IHs.
        destruct Hresp as [->|[e ->]]; done.
    + destruct Heff as [(i & m & -> & Hi & Hrec)|[Hresp Hrec]].
      * rewrite Hrec in IHp, IHs. split.
        -- rewrite <- Permutation_middle, IHp.
           rewrite (delete_Permutation _ _ _ Hi) at 2. done.
        -- etrans; [exact IHs|].
           apply sublist_app; [apply sublist_delete|done].
      * rewrite Hrec in IHp, IHs.
        destruct Hresp as [->|[e ->]]; done.
Qed.

Lemma pretty_N_go_ne_empty x s : s <> "" -> pretty_N_go x s <> "".
Proof.
  revert s. induction (N.lt_wf_0 x) as [x _ IH]; intros s Hs.
  assert (x = 0 \/ 0 < x)%N as [->|Hx] by lia.
  - by rewrite pretty_N_go_0.
  - rewrite pretty_N_go_step by done. apply IH; [by apply N.div_lt|done].
Qed.

Lemma Sprintf_d_nonempty n : Sprintf_d n <> "".
Proof.
  unfold Sprintf_d, pretty, pretty_nat, pretty, pretty_N.
  case_decide; [done|].
  assert (0 < N.of_nat n)%N as Hn by lia.
  rewrite pretty_N_go_step by done. by apply pretty_N_go_ne_empty.
Qed.

(** ** The handlers and the store of the specification *)

Lemma specBind_BindMeter m :
  specBind m = match (BindMeter m).2 with
               | None => Some (BindMeter m).1
               | Some _ => None
               end.
Proof.
  unfold specBind, BindMeter.
  change (Duration (set_Slug (ToLower (ProjectName m)) m)) with (Duration m).
  destruct (decide (Duration m = "")); cbn [Duration set_Duration];
    destruct (ParseDuration _); reflexivity.
Qed.

Lemma specCreated_ID body r m :
  specCreated body r = Some m -> ID m = Sprintf_d (r + 10).
Proof.
  unfold specCreated. destruct (_ || _); [discriminate|].
  destruct (specBind _); [|discriminate]. by intros [= <-].
Qed.

(** A create request appends the record of the specification, and
    answers with it. *)
Lemma CreateMeter_spec body r st :
  wf st ->
  records (CreateMeter body r st).2
    = records st ++ option_list (specCreated body r)
  /\ createdBy (ReqCreate body r, (CreateMeter body r st).1)
     = specCreated body r.
Proof.
  intros Hwf. destruct st as [h ms].
  unfold CreateMeter, renderBind, specCreated. cbn [heap meters].
  rewrite DecodeJSON_nil_meta, specBind_BindMeter.
  destruct (bodyMeta body) as [[u pid] e]. cbn [fst snd].
  set (dm := decodeMeter (members body) zeroMeter).
  destruct (existsb _ (members body)); cbn [negb].
  - destruct e; cbn [orb User fst snd].
    { split; [|done]. rewrite app_nil_r. by apply records_heap_app. }
    destruct (userBindFails u); cbn [orb fst snd].
    { split; [|done]. rewrite app_nil_r. by apply records_heap_app. }
    rewrite (Bind_ptr _ _ _ _ _ (lookup_snoc _ _)), insert_snoc.
    destruct (BindMeter dm) as [m' [err|]]; cbn [fst snd MeterPtr].
    { split; [|done]. rewrite app_nil_r. by apply records_heap_app. }
    unfold dbNewMeter, renderMeter. cbn [heap meters].
    rewrite (store_lookup _ _ _ _ (lookup_snoc _ _)), insert_snoc.
    rewrite lookup_snoc. cbn [fst snd]. split; [|done].
    by apply records_snoc.
  - rewrite !orb_true_r. destruct e; cbn [User fst snd].
    { split; [|done]. by rewrite app_nil_r. }
    destruct (userBindFails u); cbn [fst snd].
    { split; [|done]. by rewrite app_nil_r. }
    unfold Bind. cbn [MeterPtr fst snd]. split; [|done]. by rewrite app_nil_r.
Qed.

Lemma hasID_deref h id p :
  id <> "" -> hasID h id p <-> ID (deref h p) = id.
Proof.
  intros Hid. unfold hasID, deref. destruct (h !! p) as [m|]; simpl.
  - split; [by intros [= ->]|by intros ->].
  - split; [done|]. intros Heq. by destruct Hid.
Qed.

Lemma specFind_deref h id ms :
  id <> "" ->
  specFind id (deref h <$> ms)
  = (fun ip => deref h ip.2) <$> list_find (hasID h id) ms.
Proof.
  intros Hid. induction ms as [|p ms IH]; [done|].
  cbn [fmap list_fmap specFind list_find].
  destruct (decide (hasID h id p)) as [Hp|Hp];
    destruct (decide (ID (deref h p) = id)) as [Hd|Hd]; try done.
  - by apply (hasID_deref h id p Hid) in Hp.
  - by apply (hasID_deref h id p Hid) in Hd.
  - rewrite IH. by destruct (list_find _ ms) as [[i q]|].
Qed.

Lemma specRemove_deref h id ms :
  id <> "" ->
  specRemove id (deref h <$> ms)
  = match list_find (hasID h id) ms with
    | Some (i, _) => delete i (deref h <$> ms)
    | None => deref h <$> ms
    end.
Proof.
  intros Hid. induction ms as [|p ms IH]; [done|].
  cbn [fmap list_fmap specRemove list_find].
  destruct (decide (hasID h id p)) as [Hp|Hp];
    destruct (decide (ID (deref h p) = id)) as [Hd|Hd]; try done.
  - by apply (hasID_deref h id p Hid) in Hp.
  - by apply (hasID_deref h id p Hid) in Hd.
  - rewrite IH. by destruct (list_find _ ms) as [[i q]|].
Qed.

Lemma spec_not_in id l :
  id ∉ ID <$> l -> specRemove id l = l /\ specFind id l = None.
Proof.
  induction l as [|m l IH]; [done|]. cbn [fmap list_fmap specRemove specFind].
  intros Hnot. apply not_elem_of_cons in Hnot as [Hne Hnot].
  rewrite !decide_False by (intros Heq; by apply Hne).
  destruct (IH Hnot) as [-> ->]. done.
Qed.

Lemma specRemove_sublist id l : specRemove id l `sublist_of` l.
Proof.
  induction l as [|m l IH]; [done|]. cbn [specRemove].
  destruct (decide (ID m = id)); [by apply sublist_cons|by apply sublist_skip].
Qed.

(** A delete request removes the first record with the ID, and answers
    with it. *)
Lemma DeleteMeter_spec meterID st :
  wf st -> "" ∉ ids st ->
  records (serve (ReqDelete meterID) st).2 = specRemove meterID (records st)
  /\ deletedBy (ReqDelete meterID, (serve (ReqDelete meterID) st).1)
     = specFind meterID (records st).
Proof.
  intros Hwf Hne. cbn [serve]. unfold MeterCtx.
  destruct (decide (meterID <> "")) as [Hid|Hid].
  - destruct st as [h ms]. unfold dbGetMeter. cbn [heap meters].
    rewrite (records_deref h ms) by done.
    rewrite specRemove_deref, specFind_deref by done.
    destruct (list_find (hasID h meterID) ms) as [[i p]|] eqn:Hfind;
      cbn [fmap option_fmap option_map snd fst].
    + destruct (list_find_hasID _ _ _ _ _ Hfind) as (_ & m & Hp & HID).
      unfold DeleteMeter, dbRemoveMeter. cbn [heap meters].
      rewrite Hp, HID, Hfind. unfold renderMeter. cbn [heap]. rewrite Hp.
      cbn [fst snd deletedBy]. split.
      * rewrite records_delete by done. by rewrite records_deref.
      * unfold deref. by rewrite Hp.
    + split; [by apply records_deref|done].
  - apply dec_stable in Hid. subst meterID. cbn [fst snd].
    by destruct (spec_not_in "" (records st) Hne) as [-> ->].
Qed.

(** One request that is not an update, against the specification. *)
Lemma serve_spec req st :
  wf st -> "" ∉ ids st -> isUpdate req = false ->
  records (serve req st).2 = specStep (records st) req
  /\ createdBy (req, (serve req st).1) = specCreatedBy req
  /\ deletedBy (req, (serve req st).1) = specRemovedBy req (records st)
  /\ "" ∉ ids (serve req st).2.
Proof.
  intros Hwf Hne Hreq.
  assert (H : records (serve req st).2 = specStep (records st) req
              /\ createdBy (req, (serve req st).1) = specCreatedBy req
              /\ deletedBy (req, (serve req st).1)
                 = specRemovedBy req (records st)).
  { destruct req as [|body r|meterID|meterSlug|meterID body|meterID];
      try discriminate; cbn [specStep specCreatedBy specRemovedBy].
    - done.
    - destruct (CreateMeter_spec body r st Hwf) as [H1 H2].
      cbn [serve]. split; [done|]. split; [done|].
      by destruct (CreateMeter body r st).1.
    - cbn [serve]. by rewrite MeterCtx_GetMeter_state.
    - cbn [serve]. by rewrite MeterCtx_GetMeter_state.
    - destruct (DeleteMeter_spec meterID st Hwf Hne) as [H1 H2].
      split; [done|]. split; [|done].
      by destruct (serve (ReqDelete meterID) st).1. }
  destruct H as (H1 & H2 & H3). split; [done|]. split; [done|]. split; [done|].
  unfold ids in *. rewrite H1.
  destruct req as [|body r|meterID|meterSlug|meterID body|meterID];
    cbn [specStep]; try done.
  - rewrite fmap_app. intros [Hin|Hin]%elem_of_app; [done|].
    destruct (specCreated body r) as [m|] eqn:Hc; cbn in Hin.
    + apply list_elem_of_singleton in Hin. symmetry in Hin.
      rewrite (specCreated_ID _ _ _ Hc) in Hin.
      by apply Sprintf_d_nonempty in Hin.
    + by apply elem_of_nil in Hin.
  - intros Hin. apply Hne. eapply elem_of_sublist; [exact Hin|].
    apply fmap_sublist, specRemove_sublist.
Qed.

(** A sequence of creates, deletes and reads, against the
    specification. *)
Lemma run_spec reqs : forall st,
  wf st -> "" ∉ ids st -> Forall (fun req => isUpdate req = false) reqs ->
  records (run reqs st).2 = survivors reqs (records st)
  /\ created reqs (run reqs st).1 = createdRecords reqs
  /\ deleted reqs (run reqs st).1 = removedRecords reqs (records st).
Proof.
  induction reqs as [|req reqs IH]; intros st Hwf Hne Hreqs; [done|].
  apply Forall_cons in Hreqs as [Hreq Hreqs].
  rewrite run_cons. cbn [fst snd survivors removedRecords].
  destruct (serve_spec req st Hwf Hne Hreq) as (H1 & H2 & H3 & Hne1).
  destruct (IH (serve req st).2 (proj1 (serve_effect req st Hwf)) Hne1 Hreqs)
    as (IH1 & IH2 & IH3).
  rewrite <- H1, <- H3. split; [done|].
  unfold created, deleted, createdRecords in *.
  cbn [zip zip_with omap list_omap]. rewrite H2, IH2, IH3. split; [done|].
  by destruct (deletedBy _).
Qed.

Lemma decodeMember_err a h kv : (decodeMember (a, h, true) kv).2 = true.
Proof.
  unfold decodeMember. destruct (fieldOf kv.1) as [[f| |]|]; simpl; try done.
  - destruct (MeterPtr a); simpl; by destruct (decodeMeterField f kv.2).
  - by destruct (decodeUserPayload kv.2 (User a)).
  - by destruct kv.2.
Qed.

Lemma foldl_decode_err kvs : forall a h,
  (foldl decodeMember (a, h, true) kvs).2 = true.
Proof.
  induction kvs as [|kv kvs IH]; intros a h; [done|]. cbn [foldl].
  pose proof (decodeMember_err a h kv) as He.
  destruct (decodeMember (a, h, true) kv) as [[a' h'] e']. simpl in He.
  subst e'. apply IH.
Qed.

Lemma decodeMember_string_id a h e kv :
  isIdKey kv.1 = true -> stringId kv = true ->
  exists pid,
    decodeMember (a, h, e) kv
    = (mkMeterRequest (MeterPtr a) (User a) pid, h, e).
Proof.
  unfold stringId, isIdKey, decodeMember.
  destruct (fieldOf kv.1) as [[f| |]|]; try discriminate. intros _.
  destruct kv.2; try discriminate; intros _; destruct a; eauto.
Qed.

Lemma decodeMember_bad_id a h e kv :
  stringId kv = false -> decodeMember (a, h, e) kv = (a, h, true).
Proof.
  unfold stringId, isIdKey, decodeMember.
  destruct (fieldOf kv.1) as [[f| |]|]; try discriminate.
  by destruct kv.2.
Qed.

Lemma decodeMember_not_id a h e kv a2 h2 e2 pid :
  isIdKey kv.1 = false -> decodeMember (a, h, e) kv = (a2, h2, e2) ->
  decodeMember (mkMeterRequest (MeterPtr a) (User a) pid, h, e) kv
  = (mkMeterRequest (MeterPtr a2) (User a2) pid, h2, e2).
Proof.
  unfold isIdKey, decodeMember.
  destruct (fieldOf kv.1) as [[f| |]|]; try discriminate; intros _;
    cbn [MeterPtr User ProtectedID].
  - destruct (MeterPtr a) as [p|]; cbn [alloc];
      destruct (decodeMeterField f kv.2); intros [= <- <- <-]; done.
  - destruct (decodeUserPayload kv.2 (User a)) as [u e'].
    intros [= <- <- <-]; done.
  - intros [= <- <- <-]; done.
Qed.

(** Decoding without the "id" members, when each of them is a string or
    null: the same Meter pointer, user, heap and error. *)
Lemma decode_dropId kvs : forall a h e pid a1 h1 e1,
  forallb stringId kvs = true ->
  foldl decodeMember (a, h, e) kvs = (a1, h1, e1) ->
  exists pid1,
    foldl decodeMember (mkMeterRequest (MeterPtr a) (User a) pid, h, e)
          (filter (fun kv => isIdKey kv.1 = false) kvs)
    = (mkMeterRequest (MeterPtr a1) (User a1) pid1, h1, e1).
Proof.
  induction kvs as [|kv kvs IH]; intros a h e pid a1 h1 e1 Hstr H.
  - simpl in H. injection H as <- <- <-. by exists pid.
  - cbn [forallb] in Hstr. apply andb_true_iff in Hstr as [Hkv Hstr].
    cbn [foldl] in H.
    destruct (isIdKey kv.1) eqn:Hk.
    + rewrite filter_cons_False by (rewrite Hk; discriminate).
      destruct (decodeMember_string_id a h e kv Hk Hkv) as [pid' Hstep].
      rewrite Hstep in H.
      exact (IH _ h e pid a1 h1 e1 Hstr H).
    + rewrite filter_cons_True by done. cbn [foldl].
      destruct (decodeMember (a, h, e) kv) as [[a2 h2] e2] eqn:Hstep.
      rewrite (decodeMember_not_id _ _ _ _ _ _ _ pid Hk Hstep).
      exact (IH a2 h2 e2 pid a1 h1 e1 Hstr H).
Qed.

(** An "id" member that is neither a string nor null is a decoding
    error. *)
Lemma decode_bad_id kvs : forall a h e,
  forallb stringId kvs = false -> (foldl decodeMember (a, h, e) kvs).2 = true.
Proof.
  induction kvs as [|kv kvs IH]; intros a h e Hstr; [done|].
  cbn [forallb] in Hstr. cbn [foldl].
  destruct (stringId kv) eqn:Hkv.
  - destruct (decodeMember (a, h, e) kv) as [[a2 h2] e2]. by apply IH.
  - rewrite (decodeMember_bad_id _ _ _ _ Hkv). apply foldl_decode_err.
Qed.

Lemma Bind_pid a h pid :
  Bind (mkMeterRequest (MeterPtr a) (User a) pid) h = Bind a h.
Proof. reflexivity. Qed.

Lemma decodeMeter_untouched kvs m :
  existsb (fun kv => isMeterKey kv.1) kvs = false -> decodeMeter kvs m = m.
Proof.
  induction kvs as [|kv kvs IH]; [done|]. cbn [existsb].
  intros [Hk Hr]%orb_false_iff.
  rewrite decodeMeter_cons, (writeMember_other _ _ Hk). by apply IH.
Qed.

Lemma dbGetMeter_fresh h ms m :
  wf (mkState h ms) -> ID m ∉ ids (mkState h ms) ->
  dbGetMeter (ID m) (mkState (h ++ [m]) (ms ++ [length h])) = Some (length h).
Proof.
  intros Hwf Hnot. unfold dbGetMeter. cbn [heap meters].
  rewrite list_find_app_r.
  - cbn [list_find]. rewrite decide_True; [done|].
    unfold hasID. by rewrite lookup_snoc.
  - apply list_find_None, Forall_forall. intros p Hp Hhas.
    apply Hnot. unfold wf in Hwf. cbn [heap meters] in Hwf.
    rewrite Forall_forall in Hwf. specialize (Hwf p Hp).
    unfold hasID in Hhas. rewrite lookup_app_l in Hhas by done.
    destruct (h !! p) as [mp|] eqn:Hmp; [|done]. simpl in Hhas.
    injection Hhas as <-. unfold ids, records. cbn [heap meters].
    apply list_elem_of_fmap. exists mp. split; [done|].
    apply list_elem_of_omap. by exists p.
Qed.

Lemma BindMeter_bad m :
  Duration m <> "" -> ParseDuration (Duration m) = None ->
  BindMeter m = (set_duration 0 (set_Slug (ToLower (ProjectName m)) m),
                 Some (errParseDuration (Duration m))).
Proof.
  intros Hne Hparse. unfold BindMeter.
  change (Duration (set_Slug (ToLower (ProjectName m)) m)) with (Duration m).
  rewrite decide_False by done.
  change (Duration (set_Slug (ToLower (ProjectName m)) m)) with (Duration m).
  by rewrite Hparse.
Qed.

Lemma fieldOf_project : fieldOf "project" = Some (FMeter FProjectName).
Proof. reflexivity. Qed.

(** ** The claims *)

(** C1 (the code departs from the claim).  An update whose body binds
    and whose resolved Meter has an ID that is no longer in the store is
    answered with the rendered Meter and status 200: the "meter not found."
    error of [dbUpdateMeter] is dropped by [UpdateMeter], and the store is
    left without any record of that ID. *)
Theorem UpdateMeter_missing_id_succeeds body meter st m a h :
  wf st -> heap st !! meter = Some m -> ID m ∉ ids st ->
  renderBind body (mkMeterRequest (Some meter) None "") (heap st)
    = (BindOk, a, h) ->
  exists m',
    UpdateMeter body meter st = (Rendered 200 m', mkState h (meters st))
    /\ ID m' = ID m /\ ID m ∉ ids (mkState h (meters st)).
Proof.
  destruct st as [h0 ms]. cbn [heap meters]. intros Hwf Hp Hnot Hbind.
  destruct (renderBind_ptr body meter h0 m Hp)
    as (res & u & pid & m' & Hbind' & HID & _).
  rewrite Hbind in Hbind'. injection Hbind' as <- -> ->.
  assert (Hm' : <[meter := m']> h0 !! meter = Some m').
  { apply list_lookup_insert_eq. by eapply lookup_lt_Some. }
  assert (Hids : ids (mkState (<[meter := m']> h0) ms) = ids (mkState h0 ms))
    by by eapply ids_insert_heap.
  exists m'. unfold UpdateMeter. cbn [heap meters]. rewrite Hbind.
  cbn [MeterPtr]. rewrite Hm'. unfold dbUpdateMeter. cbn [heap meters].
  destruct (list_find _ ms) as [[i q]|] eqn:Hfind.
  - exfalso. apply Hnot. rewrite <- Hids, <- HID.
    destruct (list_find_hasID _ _ _ _ _ Hfind) as (Hi & mq & Hq & HIDq).
    unfold ids. rewrite records_deref by by apply wf_heap_insert.
    apply list_elem_of_fmap. exists mq. split; [done|].
    apply list_elem_of_fmap. exists q. split.
    + unfold deref. by rewrite Hq.
    + by eapply list_elem_of_lookup_2.
  - cbn [snd]. unfold renderMeter. cbn [heap]. rewrite Hm'.
    split; [done|]. split; [done|]. by rewrite Hids.
Qed.

(** C2 (amended).  After any sequence of requests served from the
    fixture store in which no two create requests draw the same random
    number, the IDs of the records of the store are pairwise distinct. *)
Theorem ids_unique_when_draws_distinct reqs :
  NoDup (draws reqs) -> NoDup (ids (run reqs initState).2).
Proof.
  intros Hdr. apply run_ids_NoDup; [apply wf_initState| |done|].
  - rewrite ids_initState. apply NoDup_fmap_2.
    + intros x y. apply Sprintf_d_inj.
    + compute_done.
  - intros r _. rewrite ids_initState. intros Hin.
    apply list_elem_of_fmap in Hin as (n & Heq & Hn).
    apply Sprintf_d_inj in Heq. subst n.
    repeat (apply elem_of_cons in Hn as [Hn|Hn]; [lia|]).
    by apply elem_of_nil in Hn.
Qed.

(** C7.  A delete whose resolved Meter has an ID that no record of the
    store has is answered with Invalid-Request ("meter not found.") and
    leaves the state exactly as it was. *)
Theorem DeleteMeter_missing_id meter st m :
  heap st !! meter = Some m -> ID m ∉ ids st ->
  DeleteMeter meter st = (ErrInvalidRequest errMeterNotFound, st).
Proof.
  intros Hp Hnot. unfold DeleteMeter, dbRemoveMeter. rewrite Hp.
  destruct (list_find _ _) as [[i a]|] eqn:Hfind; [|done].
  exfalso. apply Hnot.
  destruct (list_find_hasID _ _ _ _ _ Hfind) as (Hi & ma & Ha & <-).
  unfold ids, records. apply list_elem_of_fmap. exists ma. split; [done|].
  apply list_elem_of_omap. exists a. split; [|done].
  by eapply list_elem_of_lookup_2.
Qed.

(** C9.  The resolver looks a Meter up by ID, and only by ID, when the
    request has an ID segment; it looks it up by slug only when there is no
    ID segment; the Meter handed to the next handler is the first of the
    store with that ID (or slug); without a segment, or when the lookup
    misses, the answer is Not-Found whatever the next handler is, and the
    state is untouched. *)
Theorem MeterCtx_precedence next meterID meterSlug st :
  (meterID <> "" ->
     (forall meter, dbGetMeter meterID st = Some meter ->
        MeterCtx next meterID meterSlug st = next meter st
        /\ exists i, meters st !! i = Some meter
             /\ hasID (heap st) meterID meter
             /\ forall j q, meters st !! j = Some q -> (j < i)%nat ->
                  ~ hasID (heap st) meterID q)
     /\ (dbGetMeter meterID st = None ->
           MeterCtx next meterID meterSlug st = (ErrNotFound, st)))
  /\ (meterID = "" -> meterSlug <> "" ->
        (forall meter, dbGetMeterBySlug meterSlug st = Some meter ->
           MeterCtx next meterID meterSlug st = next meter st
           /\ exists i, meters st !! i = Some meter
                /\ hasSlug (heap st) meterSlug meter
                /\ forall j q, meters st !! j = Some q -> (j < i)%nat ->
                     ~ hasSlug (heap st) meterSlug q)
        /\ (dbGetMeterBySlug meterSlug st = None ->
              MeterCtx next meterID meterSlug st = (ErrNotFound, st)))
  /\ (meterID = "" -> meterSlug = "" ->
        MeterCtx next meterID meterSlug st = (ErrNotFound, st)).
Proof.
  split; [|split].
  - intros Hid. split.
    + intros meter Hget. split.
      * unfold MeterCtx. rewrite decide_True by done. by rewrite Hget.
      * unfold dbGetMeter in Hget.
        destruct (list_find _ _) as [[i a]|] eqn:Hfind; [|done].
        injection Hget as ->. apply list_find_Some in Hfind. eauto.
    + intros Hnone. unfold MeterCtx. rewrite decide_True by done.
      by rewrite Hnone.
  - intros -> Hslug. split.
    + intros meter Hget. split.
      * unfold MeterCtx. rewrite decide_False by (intros H; by apply H).
        rewrite decide_True by done. by rewrite Hget.
      * unfold dbGetMeterBySlug in Hget.
        destruct (list_find _ _) as [[i a]|] eqn:Hfind; [|done].
        injection Hget as ->. apply list_find_Some in Hfind. eauto.
    + intros Hnone. unfold MeterCtx.
      rewrite decide_False by (intros H; by apply H).
      rewrite decide_True by done. by rewrite Hnone.
  - intros -> ->. unfold MeterCtx.
    by rewrite !decide_False by (intros H; by apply H).
Qed.

(** C3 (amended).  An update whose body decodes without an error and
    leaves an unparseable duration string in the Meter is answered with
    Invalid-Request, and the record of the store the resolver found has been
    overwritten in place with the field values of the body: the decoder
    writes through the resolved pointer before any check.  When the [Bind] of
    a user payload fails, its error is the answer and the record is the
    decoded one; otherwise the answer is the parse error and [Bind] has also
    written the slug derived from the project name and a zero internal
    duration.  The store is changed exactly when the overwritten record
    differs from the record that was there. *)
Theorem UpdateMeter_bad_duration_overwrites body meter st m :
  wf st -> heap st !! meter = Some m ->
  (DecodeJSON body (mkMeterRequest (Some meter) None "") (heap st)).2 = false ->
  let m1 := decodeMeter (members body) m in
  Duration m1 <> "" -> ParseDuration (Duration m1) = None ->
  let failed :=
    userBindFails
      (User (DecodeJSON body (mkMeterRequest (Some meter) None "") (heap st)).1.1) in
  let e := if failed then errUserBind else errParseDuration (Duration m1) in
  let m2 := if failed then m1
            else set_duration 0 (set_Slug (ToLower (ProjectName m1)) m1) in
  let st1 := mkState (<[meter := m2]> (heap st)) (meters st) in
  UpdateMeter body meter st = (ErrInvalidRequest e, st1)
  /\ (st1 = st <-> m2 = m)
  /\ forall i, meters st !! i = Some meter ->
       records st1 !! i = Some m2
       /\ (records st1 = records st <-> m2 = m).
Proof.
  intros Hwf Hp He m1 Hne Hparse failed e m2 st1.
  destruct st as [h ms]. cbn [heap meters] in *.
  assert (Hlt : (meter < length h)%nat) by by eapply lookup_lt_Some.
  assert (HU : forall failed',
    userBindFails
      (User (DecodeJSON body (mkMeterRequest (Some meter) None "") h).1.1)
    = failed' ->
    UpdateMeter body meter (mkState h ms)
    = (ErrInvalidRequest
         (if failed' then errUserBind else errParseDuration (Duration m1)),
       mkState (<[meter := if failed' then m1
                           else set_duration 0
                                  (set_Slug (ToLower (ProjectName m1)) m1)]> h)
               ms)).
  { unfold UpdateMeter, renderBind. cbn [heap meters].
    rewrite (DecodeJSON_ptr_meta _ _ _ _ Hp) in He |- *.
    cbn [fst snd User] in He |- *. rewrite He. fold m1.
    intros failed' <-.
    destruct (userBindFails (bodyMeta body).1.1); [reflexivity|].
    rewrite (Bind_ptr meter (bodyMeta body).1.1 (bodyMeta body).1.2
               (<[meter := m1]> h) m1) by by apply list_lookup_insert_eq.
    by rewrite list_insert_insert_eq, (BindMeter_bad m1 Hne Hparse). }
  split; [by apply HU|].
  assert (Hback : m2 = m -> st1 = mkState h ms).
  { intros Heq. unfold st1. by rewrite Heq, list_insert_id. }
  split.
  - split; [|exact Hback]. intros Hst. injection Hst as Hh.
    assert (Hl : <[meter := m2]> h !! meter = Some m2)
      by by apply list_lookup_insert_eq.
    rewrite Hh, Hp in Hl. by injection Hl.
  - intros i Hi.
    assert (H1 : records st1 !! i = Some m2).
    { unfold st1. rewrite records_deref by by apply wf_heap_insert.
      rewrite list_lookup_fmap, Hi. simpl. unfold deref.
      by rewrite list_lookup_insert_eq. }
    split; [exact H1|]. split.
    + intros Hr. rewrite Hr, records_deref in H1 by done.
      rewrite list_lookup_fmap, Hi in H1. simpl in H1. unfold deref in H1.
      rewrite Hp in H1. simpl in H1. by injection H1.
    + intros Heq. by rewrite (Hback Heq).
Qed.

(** C4 (amended).  A create request whose "id" members are JSON strings
    or null has the outcome, answer and state, of the same request without
    them: the client's ID is discarded.  An "id" member of any other JSON
    type is not discarded: the request is answered with Invalid-Request and
    nothing is appended.  A record a create is answered with carries the ID
    made from the draw, and it is the record appended to the store. *)
Theorem CreateMeter_discards_client_id body r st :
  (forallb stringId (members body) = true ->
     CreateMeter body r st = CreateMeter (dropId body) r st)
  /\ (forallb stringId (members body) = false ->
        exists st1,
          CreateMeter body r st = (ErrInvalidRequest errDecode, st1)
          /\ meters st1 = meters st)
  /\ (forall status m st1,
        CreateMeter body r st = (Rendered status m, st1) ->
        ID m = Sprintf_d (r + 10)
        /\ st1 = mkState (heap st ++ [m]) (meters st ++ [length (heap st)])
        /\ CreateMeter (dropId body) r st = (Rendered status m, st1)).
Proof.
  assert (Hdrop : forallb stringId (members body) = true ->
                  CreateMeter body r st = CreateMeter (dropId body) r st).
  { intros Hstr. destruct body as [| | |kvs]; try reflexivity.
    unfold CreateMeter, renderBind. cbn [dropId DecodeJSON members] in *.
    destruct (foldl decodeMember (mkMeterRequest None None "", heap st, false) kvs)
      as [[a1 h1] e1] eqn:Hdec.
    destruct (decode_dropId kvs _ _ _ "" _ _ _ Hstr Hdec) as [pid1 Hd].
    cbn [MeterPtr User] in Hd. rewrite Hd. cbn [User].
    rewrite Bind_pid.
    destruct e1; [done|]. by destruct (userBindFails (User a1)). }
  assert (Hbad : forallb stringId (members body) = false ->
                 exists st1,
                   CreateMeter body r st = (ErrInvalidRequest errDecode, st1)
                   /\ meters st1 = meters st).
  { intros Hstr. destruct body as [| | |kvs]; try discriminate.
    unfold CreateMeter, renderBind. cbn [DecodeJSON members] in *.
    pose proof (decode_bad_id kvs (mkMeterRequest None None "") (heap st) false
                  Hstr) as He.
    destruct (foldl decodeMember _ kvs) as [[a1 h1] e1].
    cbn [snd] in He. subst e1. eauto. }
  split; [exact Hdrop|]. split; [exact Hbad|].
  intros status m st1 H.
  assert (H12 : ID m = Sprintf_d (r + 10)
           /\ st1 = mkState (heap st ++ [m]) (meters st ++ [length (heap st)])).
  { destruct (CreateMeter_cases body r st)
      as [(m0 & H0 & Hm0 & _)|(resp & h' & H0 & _ & Hresp)];
      rewrite H0 in H.
    - injection H as <- <- <-. by rewrite Hm0.
    - injection H as -> _. destruct Hresp as [[? _]|[e ?]]; done. }
  destruct H12 as [H1 H2]. split; [done|]. split; [done|].
  destruct (forallb stringId (members body)) eqn:Hstr.
  - by rewrite <- Hdrop.
  - destruct (Hbad eq_refl) as (st2 & H2' & _). by rewrite H2' in H.
Qed.

(** C5.  A create request whose body leaves an unparseable duration
    string in the Meter is answered with Invalid-Request; the slice of the
    store and every record it points to are as before (the Meter the decoder
    allocated stays outside the store). *)
Theorem CreateMeter_bad_duration body r st :
  wf st ->
  let m1 := decodeMeter (members body) zeroMeter in
  Duration m1 <> "" -> ParseDuration (Duration m1) = None ->
  exists e st1,
    CreateMeter body r st = (ErrInvalidRequest e, st1)
    /\ meters st1 = meters st /\ records st1 = records st
    /\ heap st `prefix_of` heap st1.
Proof.
  intros Hwf m1 Hne Hparse.
  destruct (CreateMeter_cases body r st)
    as [(m0 & _ & _ & Hok)|(resp & h' & H0 & Hh' & Hresp)].
  - exfalso. fold m1 in Hok. by rewrite (BindMeter_bad m1 Hne Hparse) in Hok.
  - destruct Hresp as [[_ Hno]|[e ->]].
    + exfalso. apply Hne. unfold m1. by rewrite decodeMeter_untouched.
    + exists e, (mkState h' (meters st)). split; [done|]. split; [done|].
      destruct st as [h ms]. cbn [heap meters] in *.
      destruct Hh' as [->|[x ->]]; [done|]. split.
      * by apply records_heap_app.
      * by apply prefix_app_r.
Qed.

(** C6 (amended).  When "1h" parses and the drawn ID is not yet the ID
    of a record of the store, a create with the body {project: X} is answered
    with status 201 and a record, and a get by the ID of that record is
    answered with the same record, whose slug is the lower-cased X and whose
    duration string is "1h". *)
Theorem create_then_get_roundtrip X r st d :
  wf st -> ParseDuration "1h" = Some d -> Sprintf_d (r + 10) ∉ ids st ->
  exists m st1,
    CreateMeter (BodyObject [("project", JStr X)]) r st = (Rendered 201 m, st1)
    /\ serve (ReqGet (ID m)) st1 = (Rendered 200 m, st1)
    /\ Slug m = ToLower X /\ Duration m = "1h".
Proof.
  destruct st as [h ms]. intros Hwf Hparse Hfresh.
  set (body := BodyObject [("project", JStr X)]).
  assert (Hdm : decodeMeter (members body) zeroMeter = set_ProjectName X zeroMeter).
  { unfold body, decodeMeter. cbn [members foldl]. unfold writeMember.
    cbn [fst snd]. by rewrite fieldOf_project. }
  assert (HB : BindMeter (set_ProjectName X zeroMeter)
               = (set_duration d (set_Duration "1h"
                    (set_Slug (ToLower X) (set_ProjectName X zeroMeter))), None)).
  { unfold BindMeter. rewrite decide_True by reflexivity.
    cbn [Duration set_Duration]. rewrite Hparse. reflexivity. }
  destruct (CreateMeter_cases body r (mkState h ms))
    as [(m & Hc & Hm & _)|(resp & h' & Hc & _ & Hresp)].
  - rewrite Hdm, HB in Hm. cbn [fst] in Hm.
    exists m, (mkState (h ++ [m]) (ms ++ [length h])).
    assert (HID : ID m = Sprintf_d (r + 10)) by by rewrite Hm.
    split; [exact Hc|]. split; [|by rewrite Hm].
    cbn [serve]. unfold MeterCtx.
    rewrite decide_True by (rewrite HID; apply Sprintf_d_nonempty).
    rewrite dbGetMeter_fresh; [|done|by rewrite HID].
    unfold GetMeter, renderMeter. cbn [heap]. by rewrite lookup_snoc.
  - exfalso. unfold CreateMeter, renderBind in Hc.
    cbn [body DecodeJSON foldl] in Hc. unfold decodeMember in Hc.
    cbn [fst snd] in Hc. rewrite fieldOf_project in Hc.
    cbn [MeterPtr alloc decodeMeterField User ProtectedID] in Hc.
    rewrite (store_lookup _ _ _ _ (lookup_snoc h zeroMeter)), insert_snoc in Hc.
    cbn [userBindFails] in Hc.
    rewrite (Bind_ptr _ _ _ _ _ (lookup_snoc _ _)), HB in Hc.
    cbn [fst snd User MeterPtr] in Hc.
    unfold renderMeter, dbNewMeter in Hc. cbn [heap meters] in Hc.
    rewrite insert_snoc in Hc.
    rewrite (store_lookup _ _ _ _ (lookup_snoc _ _)), insert_snoc in Hc.
    rewrite lookup_snoc in Hc. injection Hc as <- _.
    destruct Hresp as [[? _]|[e ?]]; done.
Qed.

(** C8.  After any sequence of create and delete requests (and of
    reads) served from the fixture store, the listing is the list of the
    surviving records of the specification: the fixtures, then the records
    of the creates in the order of the requests, each delete having removed
    the first record with its ID.  The records the creates and the deletes
    were answered with are the records the specification adds and removes;
    with the removed records the listing makes up exactly the fixtures and
    the created records, and it keeps them in the order of insertion. *)
Theorem ListMeters_after_creates_and_deletes reqs :
  Forall (fun req => isUpdate req = false) reqs ->
  ListMeters (run reqs initState).2
    = (RenderedList (survivors reqs fixtures), (run reqs initState).2)
  /\ created reqs (run reqs initState).1 = createdRecords reqs
  /\ deleted reqs (run reqs initState).1 = removedRecords reqs fixtures
  /\ survivors reqs fixtures ++ removedRecords reqs fixtures
       ≡ₚ fixtures ++ createdRecords reqs
  /\ survivors reqs fixtures `sublist_of` fixtures ++ createdRecords reqs.
Proof.
  intros Hreqs.
  assert (Hne : "" ∉ ids initState) by compute_done.
  destruct (run_spec reqs initState wf_initState Hne Hreqs) as (H1 & H2 & H3).
  destruct (run_records reqs initState wf_initState Hreqs) as [Hp Hs].
  change (records initState) with fixtures in *.
  rewrite H1, H2, H3 in Hp. rewrite H1, H2 in Hs.
  unfold ListMeters. by rewrite H1.
Qed.

(** C10 (amended).  A create request whose body decodes without an
    error and has no member for a field of the embedded Meter leaves the
    Meter pointer nil.  The library binds the fields of the payload first: if
    the body has a user payload whose [Bind] fails, that error is answered as
    Invalid-Request and [MeterRequest.Bind] does not run; otherwise
    [MeterRequest.Bind] dereferences the nil pointer and the handler panics.
    The state is untouched either way. *)
Theorem CreateMeter_nil_Meter_panics body r st :
  existsb (fun kv => isMeterKey kv.1) (members body) = false ->
  (DecodeJSON body (mkMeterRequest None None "") (heap st)).2 = false ->
  CreateMeter body r st
  = (if userBindFails
          (User (DecodeJSON body (mkMeterRequest None None "") (heap st)).1.1)
     then ErrInvalidRequest errUserBind
     else Panic,
     st).
Proof.
  intros Hno He. unfold CreateMeter, renderBind.
  rewrite DecodeJSON_nil_meta, Hno in He |- *. cbn [fst snd User] in He |- *.
  rewrite He. destruct st as [h ms]. cbn [heap meters].
  by destruct (userBindFails (bodyMeta body).1.1).
Qed.

(** ** More of the code: lemmas *)

(** [render.Bind] on the payload of an update, in closed form. *)
Lemma renderBind_ptr_eq body p h m :
  h !! p = Some m ->
  exists u pid,
    renderBind body (mkMeterRequest (Some p) None "") h
    = (updateResult body m, mkMeterRequest (Some p) u pid,
       <[p := updateRecord body m]> h).
Proof.
  intros Hm. unfold renderBind, updateResult, updateRecord.
  rewrite (DecodeJSON_ptr_meta _ _ _ _ Hm).
  destruct (bodyMeta body) as [[u pid] e]. cbn [fst snd].
  destruct e; [eauto|]. cbn [orb User].
  destruct (userBindFails u); [eauto|].
  set (dm := decodeMeter (members body) m).
  rewrite (Bind_ptr p u pid (<[p := dm]> h) dm)
    by (apply list_lookup_insert_eq; by eapply lookup_lt_Some).
  rewrite list_insert_insert_eq.
  destruct (BindMeter dm) as [m' [err|]]; cbn [fst snd]; eauto.
Qed.

Lemma updateRecord_ID body m : ID (updateRecord body m) = ID m.
Proof.
  unfold updateRecord. destruct (_ || _).
  - apply decodeMeter_ID.
  - by rewrite BindMeter_ID, decodeMeter_ID.
Qed.

Lemma updateResult_not_panic body m : updateResult body m <> BindPanic.
Proof.
  unfold updateResult. destruct (bodyMeta body) as [[u pid] e].
  destruct e; [done|]. destruct (userBindFails u); [done|].
  by destruct (BindMeter _).2.
Qed.

Lemma hasID_insert h p m m' id q :
  h !! p = Some m -> ID m' = ID m ->
  hasID (<[p := m']> h) id q <-> hasID h id q.
Proof.
  intros Hp HID. unfold hasID. destruct (decide (q = p)) as [->|Hne].
  - rewrite list_lookup_insert_eq by (by eapply lookup_lt_Some).
    rewrite Hp. simpl. by rewrite HID.
  - by rewrite list_lookup_insert_ne.
Qed.

Lemma list_find_hasID_insert h ms p m m' id :
  h !! p = Some m -> ID m' = ID m ->
  list_find (hasID (<[p := m']> h) id) ms = list_find (hasID h id) ms.
Proof.
  intros Hp HID. apply list_find_ext. intros q. by eapply hasID_insert.
Qed.

(** An update request whose ID is found, in closed form: the record the
    resolver found is overwritten in place, the slice is as before. *)
Lemma serve_update_hit meterID body st i p m :
  meterID <> "" ->
  list_find (hasID (heap st) meterID) (meters st) = Some (i, p) ->
  heap st !! p = Some m ->
  serve (ReqUpdate meterID body) st
  = (updateResponse body m,
     mkState (<[p := updateRecord body m]> (heap st)) (meters st)).
Proof.
  intros Hid Hfind Hp. destruct st as [h ms]. cbn [heap meters] in *.
  cbn [serve]. unfold MeterCtx, dbGetMeter. cbn [heap meters].
  rewrite decide_True by done. rewrite Hfind. cbn [fmap option_fmap option_map snd].
  unfold UpdateMeter, updateResponse. cbn [heap meters].
  destruct (renderBind_ptr_eq body p h m Hp) as (u & pid & ->).
  pose proof (updateResult_not_panic body m) as Hnp.
  destruct (updateResult body m) as [|e|]; [|done|done].
  cbn [MeterPtr].
  assert (Hnew : <[p := updateRecord body m]> h !! p = Some (updateRecord body m)).
  { apply list_lookup_insert_eq. by eapply lookup_lt_Some. }
  rewrite Hnew. unfold dbUpdateMeter. cbn [heap meters].
  assert (HIDm : ID m = meterID).
  { by destruct (list_find_hasID _ _ _ _ _ Hfind) as (_ & m0 & Hm0 & <-);
      rewrite Hp in Hm0; injection Hm0 as ->. }
  rewrite updateRecord_ID, HIDm.
  rewrite (list_find_hasID_insert h ms p m _ meterID Hp (updateRecord_ID body m)).
  rewrite Hfind. cbn [snd]. unfold renderMeter. cbn [heap]. rewrite Hnew.
  rewrite (list_insert_id ms i p); [done|].
  by apply list_find_Some in Hfind as (? & _).
Qed.

Lemma not_in_ids_not_found st id :
  id ∉ ids st -> list_find (hasID (heap st) id) (meters st) = None.
Proof.
  intros Hnot. apply list_find_None, Forall_forall. intros p Hp Hhas.
  apply Hnot. unfold hasID in Hhas.
  destruct (heap st !! p) as [mp|] eqn:Hmp; [|done]. simpl in Hhas.
  injection Hhas as <-. unfold ids, records.
  apply list_elem_of_fmap. exists mp. split; [done|].
  apply list_elem_of_omap. by exists p.
Qed.

Lemma found_iff_in_ids st id :
  is_Some (list_find (hasID (heap st) id) (meters st)) <-> id ∈ ids st.
Proof.
  split.
  - intros [[i p] Hfind].
    destruct (decide (id ∈ ids st)) as [|Hnot]; [done|].
    apply not_in_ids_not_found in Hnot. by rewrite Hnot in Hfind.
  - intros Hin. destruct (list_find _ _) eqn:E; [done|].
    by apply not_found_not_in_ids in E.
Qed.

Lemma found_iff_in_slugs st slug :
  is_Some (list_find (hasSlug (heap st) slug) (meters st)) <-> slug ∈ slugs st.
Proof.
  unfold slugs, records. split.
  - intros [[i p] Hfind]. apply list_find_Some in Hfind as (Hi & Hp & _).
    unfold hasSlug in Hp. destruct (heap st !! p) as [mp|] eqn:Hmp; [|done].
    simpl in Hp. injection Hp as <-.
    apply list_elem_of_fmap. exists mp. split; [done|].
    apply list_elem_of_omap. exists p. split; [|done].
    by eapply list_elem_of_lookup_2.
  - intros Hin. apply list_elem_of_fmap in Hin as (mp & -> & Hmp).
    apply list_elem_of_omap in Hmp as (p & Hp & Hlook).
    eapply list_find_elem_of; [exact Hp|]. unfold hasSlug. by rewrite Hlook.
Qed.


Lemma NewMeterListResponse_app acc ms :
  foldl (fun list meter => list ++ [NewMeterResponse meter]) acc ms
  = acc ++ (NewMeterResponse <$> ms).
Proof.
  revert acc. induction ms as [|a ms IH]; intros acc; cbn [foldl fmap list_fmap].
  - by rewrite app_nil_r.
  - rewrite IH, <- app_assoc. reflexivity.
Qed.

Lemma omap_RespMeter (h : list Meter) (ms : list nat) :
  omap (fun resp => h !! RespMeter resp) (NewMeterResponse <$> ms)
  = omap (fun p => h !! p) ms.
Proof.
  induction ms as [|a ms IH]; [done|].
  csimpl. rewrite IH. reflexivity.
Qed.

Lemma BindMeter_ok_bound m : (BindMeter m).2 = None -> bound (BindMeter m).1.
Proof.
  unfold BindMeter, bound.
  destruct (decide (Duration (set_Slug (ToLower (ProjectName m)) m) = ""))
    as [Hempty|Hne];
    destruct (ParseDuration _) as [d|] eqn:Hparse; cbn [fst snd];
    try discriminate; intros _; cbn; split_and!; try done.
Qed.

Lemma bound_set_ID v m : bound m -> bound (set_ID v m).
Proof. unfold bound. by destruct m. Qed.

Lemma updateResult_ok body m :
  updateResult body m = BindOk ->
  (BindMeter (decodeMeter (members body) m)).2 = None
  /\ updateRecord body m = (BindMeter (decodeMeter (members body) m)).1.
Proof.
  unfold updateResult, updateRecord.
  destruct (bodyMeta body) as [[u pid] e]. cbn [fst snd].
  destruct e; [discriminate|]. destruct (userBindFails u); [discriminate|].
  destruct (BindMeter _).2; [discriminate|]. done.
Qed.

Lemma records_insert_heap h ms i p m' :
  Forall (fun q => (q < length h)%nat) ms -> NoDup ms -> ms !! i = Some p ->
  records (mkState (<[p := m']> h) ms) = <[i := m']> (records (mkState h ms)).
Proof.
  intros Hwf Hnd Hi.
  assert (Hp : (p < length h)%nat).
  { rewrite Forall_forall in Hwf. apply Hwf. by eapply list_elem_of_lookup_2. }
  rewrite !records_deref; [|done|by rewrite length_insert].
  apply list_eq. intros j. destruct (decide (j = i)) as [->|Hne].
  - rewrite list_lookup_insert_eq
      by (rewrite length_fmap; by eapply lookup_lt_Some).
    rewrite list_lookup_fmap, Hi. simpl. unfold deref.
    by rewrite list_lookup_insert_eq.
  - rewrite list_lookup_insert_ne by done. rewrite !list_lookup_fmap.
    destruct (ms !! j) as [q|] eqn:Hj; [|done]. simpl. f_equal.
    unfold deref. rewrite list_lookup_insert_ne; [done|].
    intros <-. apply Hne. symmetry. by eapply NoDup_lookup.
Qed.

Lemma ids_lookup_hasID h ms j q :
  Forall (fun q => (q < length h)%nat) ms -> ms !! j = Some q ->
  forall id, ids (mkState h ms) !! j = Some id <-> hasID h id q.
Proof.
  intros Hwf Hj id. unfold ids. rewrite records_deref by done.
  rewrite !list_lookup_fmap, Hj. simpl. unfold hasID, deref.
  assert (Hq : (q < length h)%nat).
  { rewrite Forall_forall in Hwf. apply Hwf. by eapply list_elem_of_lookup_2. }
  destruct (lookup_lt_is_Some_2 h q Hq) as [mq ->]. simpl. done.
Qed.

Lemma serve_NoDup_meters req st :
  wf st -> NoDup (meters st) -> NoDup (meters (serve req st).2).
Proof.
  intros Hwf Hnd.
  destruct req as [|body r|meterID|meterSlug|meterID body|meterID]; cbn [serve].
  - done.
  - destruct (CreateMeter_cases body r st)
      as [(m & -> & _)|(resp & h' & -> & _)]; cbn [snd meters]; [|done].
    apply NoDup_app. split; [done|]. split; [|apply NoDup_singleton].
    intros q Hq Hq'. apply list_elem_of_singleton in Hq'. subst q.
    unfold wf in Hwf. rewrite Forall_forall in Hwf. specialize (Hwf _ Hq). lia.
  - by rewrite MeterCtx_GetMeter_state.
  - by rewrite MeterCtx_GetMeter_state.
  - unfold MeterCtx, dbGetMeter. case_decide; [|done].
    destruct (list_find _ _) as [[i p]|] eqn:Hfind; [|done].
    destruct (list_find_hasID _ _ _ _ _ Hfind) as (_ & m & Hp & _).
    pose proof (serve_update_hit meterID body st i p m H Hfind Hp) as Hs.
    cbn [serve] in Hs. unfold MeterCtx, dbGetMeter in Hs.
    rewrite decide_True in Hs by done. rewrite Hfind in Hs.
    cbn [fmap option_fmap option_map snd] in Hs |- *. by rewrite Hs.
  - unfold MeterCtx, dbGetMeter. case_decide; [|done].
    destruct (list_find _ _) as [[i p]|] eqn:Hfind; [|done].
    destruct (list_find_hasID _ _ _ _ _ Hfind) as (_ & m & Hp & _).
    cbn [fmap option_fmap option_map snd].
    destruct (DeleteMeter_cases p st m Hwf Hp) as [(j & ma & -> & _)|[-> _]];
      cbn [snd meters]; [|done].
    exact (sublist_NoDup _ _ Hnd (sublist_delete _ _)).
Qed.

Lemma run_invariant reqs : forall st,
  wf st -> NoDup (meters st) ->
  wf (run reqs st).2 /\ NoDup (meters (run reqs st).2).
Proof.
  induction reqs as [|req reqs IH]; intros st Hwf Hnd; [done|].
  rewrite run_cons. cbn [snd]. apply IH.
  - by apply serve_effect.
  - by apply serve_NoDup_meters.
Qed.

Lemma NoDup_not_in_delete (l : list string) j x :
  NoDup l -> l !! j = Some x -> x ∉ delete j l.
Proof.
  intros Hnd Hj. rewrite (delete_Permutation _ _ _ Hj) in Hnd.
  by apply NoDup_cons in Hnd as [? _].
Qed.

(** ** More of the code: properties *)

(** X1.  Every record a create or an update request is answered with has
    the slug derived from its project name, a duration string that is not
    empty, and the internal duration that string parses to. *)
Theorem answered_record_is_bound req st status m st1 :
  wf st -> serve req st = (Rendered status m, st1) ->
  (exists body r, req = ReqCreate body r)
    \/ (exists meterID body, req = ReqUpdate meterID body) ->
  bound m.
Proof.
  intros Hwf Hs [(body & r & ->)|(meterID & body & ->)].
  - cbn [serve] in Hs.
    destruct (CreateMeter_cases body r st)
      as [(m0 & H0 & -> & Hok)|(resp & h' & H0 & _ & Hresp)];
      rewrite H0 in Hs.
    + injection Hs as _ <- _. by apply bound_set_ID, BindMeter_ok_bound.
    + injection Hs as -> _. destruct Hresp as [[? _]|[e ?]]; done.
  - assert (Hhit : exists i p m0,
               meterID <> ""
               /\ list_find (hasID (heap st) meterID) (meters st) = Some (i, p)
               /\ heap st !! p = Some m0).
    { cbn [serve] in Hs. unfold MeterCtx, dbGetMeter in Hs.
      case_decide; [|done].
      destruct (list_find _ _) as [[i p]|] eqn:Hfind; [|done].
      destruct (list_find_hasID _ _ _ _ _ Hfind) as (_ & m0 & Hp & _).
      eauto 10. }
    destruct Hhit as (i & p & m0 & Hid & Hfind & Hp).
    rewrite (serve_update_hit _ body _ _ _ _ Hid Hfind Hp) in Hs.
    unfold updateResponse in Hs.
    destruct (updateResult body m0) eqn:Hres; try discriminate.
    injection Hs as _ <- _.
    destruct (updateResult_ok _ _ Hres) as [Hok ->].
    by apply BindMeter_ok_bound.
Qed.

(** X2.  An update request that is not answered with Not-Found rewrites
    exactly one record of the store, the first one with the requested ID, in
    place: the slice of pointers, the number and order of the records and
    every other record are as before, the ID of the rewritten record is the
    requested one, and a record in the answer is the rewritten record.  This
    holds for the failed updates too. *)
Theorem update_rewrites_one_record meterID body st resp st1 :
  wf st -> NoDup (meters st) ->
  serve (ReqUpdate meterID body) st = (resp, st1) -> resp <> ErrNotFound ->
  exists i m',
    meters st1 = meters st
    /\ ids st !! i = Some meterID
    /\ (forall j, (j < i)%nat -> ids st !! j <> Some meterID)
    /\ records st1 = <[i := m']> (records st)
    /\ ID m' = meterID
    /\ (forall status m, resp = Rendered status m -> status = 200%nat /\ m = m').
Proof.
  intros Hwf Hnd Hs Hresp.
  assert (Hhit : exists i p m0,
             meterID <> ""
             /\ list_find (hasID (heap st) meterID) (meters st) = Some (i, p)
             /\ heap st !! p = Some m0).
  { cbn [serve] in Hs. unfold MeterCtx, dbGetMeter in Hs.
    case_decide; [|by injection Hs as <- _].
    destruct (list_find _ _) as [[i p]|] eqn:Hfind; [|by injection Hs as <- _].
    destruct (list_find_hasID _ _ _ _ _ Hfind) as (_ & m0 & Hp & _).
    eauto 10. }
  destruct Hhit as (i & p & m0 & Hid & Hfind & Hp).
  rewrite (serve_update_hit _ body _ _ _ _ Hid Hfind Hp) in Hs.
  injection Hs as <- <-.
  pose proof Hfind as Hfind'.
  apply list_find_Some in Hfind' as (Hi & Hhas & Hleast).
  destruct st as [h ms]. cbn [heap meters] in *.
  exists i, (updateRecord body m0). split; [done|]. split.
  { by apply (ids_lookup_hasID h ms i p Hwf Hi). }
  split.
  { intros j Hj Hidj.
    destruct (lookup_lt_is_Some_2 ms j) as [q Hq].
    { apply lookup_lt_Some in Hi. lia. }
    apply (Hleast j q Hq Hj). by apply (ids_lookup_hasID h ms j q Hwf Hq). }
  split; [by apply records_insert_heap|]. split.
  { rewrite updateRecord_ID.
    unfold hasID in Hhas. rewrite Hp in Hhas. simpl in Hhas. congruence. }
  intros status m. unfold updateResponse.
  destruct (updateResult body m0); intros [= <- <-]; done.
Qed.

(** X3.  After any sequence of requests served from the fixture store,
    every pointer of the store is allocated and no two positions of the store
    hold the same pointer: no record is listed twice and a write to one
    record does not show through another position. *)
Theorem store_pointers_distinct reqs :
  wf (run reqs initState).2 /\ NoDup (meters (run reqs initState).2).
Proof.
  apply run_invariant; [apply wf_initState|]. compute_done.
Qed.

(** X4.  In a store whose IDs are pairwise distinct, a delete that is
    answered with a record answers with the record of the requested ID and
    removes the ID from the store: a get and a second delete of the same ID
    are answered with Not-Found. *)
Theorem delete_then_not_found meterID st status m st1 :
  wf st -> NoDup (ids st) ->
  serve (ReqDelete meterID) st = (Rendered status m, st1) ->
  status = 200%nat /\ ID m = meterID /\ (meterID ∉ ids st1)
  /\ serve (ReqGet meterID) st1 = (ErrNotFound, st1)
  /\ serve (ReqDelete meterID) st1 = (ErrNotFound, st1).
Proof.
  intros Hwf Hnd Hs. cbn [serve] in Hs. unfold MeterCtx, dbGetMeter in Hs.
  case_decide as Hid; [|done].
  destruct (list_find _ _) as [[i p]|] eqn:Hfind; [|done].
  destruct (list_find_hasID _ _ _ _ _ Hfind) as (_ & m0 & Hp & HID0).
  cbn [fmap option_fmap option_map snd] in Hs.
  destruct (DeleteMeter_cases p st m0 Hwf Hp)
    as [(j & ma & H0 & Hj & HIDa)|[H0 _]]; rewrite H0 in Hs; [|done].
  injection Hs as <- <- <-.
  assert (Hnot : meterID ∉ ids (mkState (heap st) (delete j (meters st)))).
  { unfold ids. destruct st as [h ms]. cbn [heap meters] in *.
    rewrite records_delete by done. rewrite list_fmap_delete.
    apply NoDup_not_in_delete; [done|].
    rewrite list_lookup_fmap, Hj. simpl. congruence. }
  split; [done|]. split; [congruence|]. split; [done|].
  apply not_in_ids_not_found in Hnot.
  cbn [serve]. unfold MeterCtx, dbGetMeter. rewrite !decide_True by done.
  by rewrite Hnot.
Qed.

(** X5.  A create that is answered with a record whose ID is new to the
    store, followed by a delete of that ID, answers the delete with the
    created record and leaves the slice and the records of the store as they
    were before the create. *)
Theorem create_then_delete_restores body r st status m st1 :
  wf st -> CreateMeter body r st = (Rendered status m, st1) ->
  ID m ∉ ids st ->
  exists st2,
    serve (ReqDelete (ID m)) st1 = (Rendered 200 m, st2)
    /\ meters st2 = meters st /\ records st2 = records st.
Proof.
  intros Hwf Hc Hfresh.
  destruct (CreateMeter_cases body r st)
    as [(m0 & H0 & Hm0 & _)|(resp & h' & H0 & _ & Hresp)]; rewrite H0 in Hc.
  2:{ injection Hc as -> _. destruct Hresp as [[? _]|[e ?]]; done. }
  injection Hc as _ -> <-.
  assert (HID : ID m = Sprintf_d (r + 10)) by by rewrite Hm0.
  destruct st as [h ms]. cbn [heap meters] in *.
  assert (Hfind : list_find (hasID (h ++ [m]) (ID m)) (ms ++ [length h])
                  = Some (length ms, length h)).
  { rewrite list_find_app_r.
    - cbn [list_find]. rewrite decide_True; [done|].
      unfold hasID. by rewrite lookup_snoc.
    - apply list_find_None, Forall_forall. intros p Hp Hhas.
      apply Hfresh. unfold wf in Hwf. cbn [heap meters] in Hwf.
      rewrite Forall_forall in Hwf. specialize (Hwf p Hp).
      unfold hasID in Hhas. rewrite lookup_app_l in Hhas by done.
      destruct (h !! p) as [mp|] eqn:Hmp; [|done]. simpl in Hhas.
      injection Hhas as <-. unfold ids, records. cbn [heap meters].
      apply list_elem_of_fmap. exists mp. split; [done|].
      apply list_elem_of_omap. by exists p. }
  exists (mkState (h ++ [m]) ms).
  split; [|split; [done|by apply records_heap_app]].
  cbn [serve]. unfold MeterCtx, dbGetMeter. cbn [heap meters].
  rewrite decide_True by (rewrite HID; apply Sprintf_d_nonempty).
  rewrite Hfind. cbn [fmap option_fmap option_map snd].
  unfold DeleteMeter, dbRemoveMeter. cbn [heap meters].
  rewrite lookup_snoc, Hfind. unfold renderMeter. cbn [heap].
  rewrite lookup_snoc.
  by rewrite (delete_middle ms [] (length h)), app_nil_r.
Qed.

(** X6.  The search handler does not filter: in every state it answers
    with the records of the store in store order, exactly as the list
    handler does, and leaves the state as it is. *)
Theorem SearchMeters_lists_all st :
  SearchMeters st = (RenderedList (records st), st)
  /\ SearchMeters st = ListMeters st.
Proof.
  assert (H : SearchMeters st = (RenderedList (records st), st)).
  { unfold SearchMeters, RenderList, NewMeterListResponse, records.
    rewrite NewMeterListResponse_app. cbn [app].
    by rewrite omap_RespMeter. }
  split; [exact H|]. by rewrite H.
Qed.


Lemma updateResponse_not_NotFound body m : updateResponse body m <> ErrNotFound.
Proof. unfold updateResponse. by destruct (updateResult body m). Qed.

(** X7.  A request is answered with Not-Found exactly when it names a
    Meter by an ID (or a slug) that is empty or that no record of the store
    has; listing and creating are never answered with Not-Found; and a request
    answered with Not-Found leaves the state as it is. *)
Theorem not_found_iff_misses req st :
  wf st ->
  ((serve req st).1 = ErrNotFound <-> misses req st)
  /\ ((serve req st).1 = ErrNotFound -> (serve req st).2 = st).
Proof.
  intros Hwf.
  destruct req as [|body r|meterID|meterSlug|meterID body|meterID];
    cbn [serve misses].
  - done.
  - destruct (CreateMeter_cases body r st)
      as [(m & -> & _)|(resp & h' & -> & _ & Hresp)]; cbn [fst]; [done|].
    destruct Hresp as [[-> _]|[e ->]]; done.
  - unfold MeterCtx, dbGetMeter.
    destruct (decide (meterID <> "")) as [Hid|Hid].
    + pose proof (found_iff_in_ids st meterID) as Hiff.
      destruct (list_find _ _) as [[i p]|] eqn:Hfind;
        cbn [fmap option_fmap option_map snd].
      * destruct (list_find_hasID _ _ _ _ _ Hfind) as (_ & m & Hp & _).
        unfold GetMeter, renderMeter. rewrite Hp. cbn [fst]. split; [|done].
        split; [done|]. intros [?|Hnot]; [done|]. exfalso. apply Hnot, Hiff. eauto.
      * cbn [fst snd]. split; [|done]. split; [|done]. intros _. right.
        intros Hin. apply Hiff in Hin. by destruct Hin.
    + apply dec_stable in Hid. subst meterID.
      rewrite decide_False by (intros H; by apply H). cbn [fst snd]. split; [|done]. split; auto.
  - unfold MeterCtx, dbGetMeterBySlug.
    rewrite decide_False by (intros H; by apply H).
    destruct (decide (meterSlug <> "")) as [Hid|Hid].
    + pose proof (found_iff_in_slugs st meterSlug) as Hiff.
      destruct (list_find _ _) as [[i p]|] eqn:Hfind;
        cbn [fmap option_fmap option_map snd].
      * assert (exists m, heap st !! p = Some m) as [m Hp].
        { apply list_find_Some in Hfind as (_ & Hhas & _).
          unfold hasSlug in Hhas. destruct (heap st !! p); [eauto|done]. }
        unfold GetMeter, renderMeter. rewrite Hp. cbn [fst]. split; [|done].
        split; [done|]. intros [?|Hnot]; [done|]. exfalso. apply Hnot, Hiff. eauto.
      * cbn [fst snd]. split; [|done]. split; [|done]. intros _. right.
        intros Hin. apply Hiff in Hin. by destruct Hin.
    + apply dec_stable in Hid. subst meterSlug. cbn [fst snd]. split; [|done]. split; auto.
  - destruct (decide (meterID <> "")) as [Hid|Hid].
    + pose proof (found_iff_in_ids st meterID) as Hiff.
      destruct (list_find (hasID (heap st) meterID) (meters st))
        as [[i p]|] eqn:Hfind.
      * destruct (list_find_hasID _ _ _ _ _ Hfind) as (_ & m & Hp & _).
        change (MeterCtx (UpdateMeter body) meterID "" st)
          with (serve (ReqUpdate meterID body) st).
        rewrite (serve_update_hit _ body _ _ _ _ Hid Hfind Hp). cbn [fst].
        pose proof (updateResponse_not_NotFound body m). split; [|done].
        split; [done|]. intros [?|Hnot]; [done|]. exfalso. apply Hnot, Hiff. eauto.
      * unfold MeterCtx, dbGetMeter. rewrite decide_True by done.
        rewrite Hfind. cbn [fmap option_fmap option_map fst snd].
        split; [|done]. split; [|done]. intros _. right.
        intros Hin. apply Hiff in Hin. by destruct Hin.
    + apply dec_stable in Hid. subst meterID. unfold MeterCtx.
      rewrite !decide_False by (intros H; by apply H). cbn [fst snd]. split; [|done]. split; auto.
  - unfold MeterCtx, dbGetMeter.
    destruct (decide (meterID <> "")) as [Hid|Hid].
    + pose proof (found_iff_in_ids st meterID) as Hiff.
      destruct (list_find _ _) as [[i p]|] eqn:Hfind;
        cbn [fmap option_fmap option_map snd].
      * destruct (list_find_hasID _ _ _ _ _ Hfind) as (_ & m & Hp & _).
        assert (Hne : (DeleteMeter p st).1 <> ErrNotFound).
        { destruct (DeleteMeter_cases p st m Hwf Hp)
            as [(j & ma & -> & _)|[-> _]]; done. }
        split; [|done].
        split; [done|]. intros [?|Hnot]; [done|]. exfalso. apply Hnot, Hiff. eauto.
      * cbn [fst snd]. split; [|done]. split; [|done]. intros _. right.
        intros Hin. apply Hiff in Hin. by destruct Hin.
    + apply dec_stable in Hid. subst meterID.
      rewrite decide_False by (intros H; by apply H). cbn [fst snd]. split; [|done]. split; auto.
Qed.


(** *** Serving the same update twice *)

Lemma Meter_ext (a b : Meter) :
  ID a = ID b -> UserID a = UserID b -> ProjectName a = ProjectName b ->
  OraConnectID a = OraConnectID b -> OraUser a = OraUser b ->
  OraPassword a = OraPassword b -> Duration a = Duration b ->
  duration a = duration b -> Slug a = Slug b -> a = b.
Proof. destruct a, b. simpl. intros. by subst. Qed.

Ltac const_or_id :=
  first [ left; intros ?; reflexivity
        | right; eexists; intros ?; cbn; reflexivity ].

Lemma writeMember_constOrId kv :
  constOrId UserID (fun x => writeMember x kv)
  /\ constOrId ProjectName (fun x => writeMember x kv)
  /\ constOrId OraConnectID (fun x => writeMember x kv)
  /\ constOrId OraUser (fun x => writeMember x kv)
  /\ constOrId OraPassword (fun x => writeMember x kv)
  /\ constOrId Duration (fun x => writeMember x kv)
  /\ constOrId Slug (fun x => writeMember x kv)
  /\ (forall x, duration (writeMember x kv) = duration x).
Proof.
  unfold writeMember, constOrId.
  destruct (fieldOf kv.1) as [[f| |]|].
  - destruct f, kv.2 as [|s|n|]; cbn [decodeMeterField];
      try destruct (int64_ok n);
      split_and!; first [ intros ?; reflexivity | const_or_id ].
  - split_and!; first [ intros ?; reflexivity | const_or_id ].
  - split_and!; first [ intros ?; reflexivity | const_or_id ].
  - split_and!; first [ intros ?; reflexivity | const_or_id ].
Qed.

Lemma constOrId_decodeMeter {A : Type} (proj : Meter -> A) :
  (forall kv, constOrId proj (fun x => writeMember x kv)) ->
  forall kvs, constOrId proj (decodeMeter kvs).
Proof.
  intros Hw kvs. induction kvs as [|kv kvs IH]; [by left|].
  unfold constOrId in *. setoid_rewrite decodeMeter_cons.
  destruct IH as [IH|[c IH]].
  - destruct (Hw kv) as [Hkv|[c Hkv]].
    + left. intros x. by rewrite IH, Hkv.
    + right. exists c. intros x. by rewrite IH, Hkv.
  - right. exists c. intros x. apply IH.
Qed.

Lemma decodeMeter_duration kvs m : duration (decodeMeter kvs m) = duration m.
Proof.
  revert m. induction kvs as [|kv kvs IH]; intros m; [done|].
  rewrite decodeMeter_cons, IH. apply writeMember_constOrId.
Qed.

Lemma constOrId_absorb {A : Type} (proj : Meter -> A) D x y :
  constOrId proj D -> proj y = proj (D x) -> proj (D y) = proj (D x).
Proof. intros [H|[c H]] Hy; [by rewrite H|by rewrite !H]. Qed.

Lemma defaultDuration_idem s :
  defaultDuration (defaultDuration s) = defaultDuration s.
Proof. unfold defaultDuration. by repeat case_decide. Qed.

Lemma constOrId_absorb_duration D x y :
  constOrId Duration D ->
  Duration y = defaultDuration (Duration (D x)) ->
  defaultDuration (Duration (D y)) = defaultDuration (Duration (D x)).
Proof.
  intros [H|[c H]] Hy; [|by rewrite !H].
  by rewrite H, Hy, H, defaultDuration_idem.
Qed.

Lemma BindMeter_fields m :
  ID (BindMeter m).1 = ID m /\ UserID (BindMeter m).1 = UserID m
  /\ ProjectName (BindMeter m).1 = ProjectName m
  /\ OraConnectID (BindMeter m).1 = OraConnectID m
  /\ OraUser (BindMeter m).1 = OraUser m
  /\ OraPassword (BindMeter m).1 = OraPassword m
  /\ Duration (BindMeter m).1 = defaultDuration (Duration m).
Proof.
  unfold BindMeter, defaultDuration.
  change (Duration (set_Slug (ToLower (ProjectName m)) m)) with (Duration m).
  destruct (decide (Duration m = "")); destruct (ParseDuration _); done.
Qed.

Lemma BindMeter_ext a b :
  ID a = ID b -> UserID a = UserID b -> ProjectName a = ProjectName b ->
  OraConnectID a = OraConnectID b -> OraUser a = OraUser b ->
  OraPassword a = OraPassword b ->
  defaultDuration (Duration a) = defaultDuration (Duration b) ->
  BindMeter a = BindMeter b.
Proof.
  destruct a, b. unfold BindMeter, defaultDuration. cbn.
  intros -> -> -> -> -> -> Hd.
  repeat case_decide; cbn in *; subst; try done;
    destruct (ParseDuration _); done.
Qed.

Lemma decodeMeter_idem kvs m :
  decodeMeter kvs (decodeMeter kvs m) = decodeMeter kvs m.
Proof.
  pose proof (fun proj H => @constOrId_decodeMeter string proj H kvs) as Hs.
  pose proof (@constOrId_decodeMeter Z UserID
                (fun kv => proj1 (writeMember_constOrId kv)) kvs) as Hu.
  apply Meter_ext.
  - by rewrite !decodeMeter_ID.
  - by apply constOrId_absorb.
  - apply constOrId_absorb; [|done]. apply Hs. intros kv.
    apply (writeMember_constOrId kv).
  - apply constOrId_absorb; [|done]. apply Hs. intros kv.
    apply (writeMember_constOrId kv).
  - apply constOrId_absorb; [|done]. apply Hs. intros kv.
    apply (writeMember_constOrId kv).
  - apply constOrId_absorb; [|done]. apply Hs. intros kv.
    apply (writeMember_constOrId kv).
  - apply constOrId_absorb; [|done]. apply Hs. intros kv.
    apply (writeMember_constOrId kv).
  - by rewrite !decodeMeter_duration.
  - apply constOrId_absorb; [|done]. apply Hs. intros kv.
    apply (writeMember_constOrId kv).
Qed.

Lemma BindMeter_decode_idem kvs m :
  BindMeter (decodeMeter kvs (BindMeter (decodeMeter kvs m)).1)
  = BindMeter (decodeMeter kvs m).
Proof.
  pose proof (fun proj H => @constOrId_decodeMeter string proj H kvs) as Hs.
  pose proof (@constOrId_decodeMeter Z UserID
                (fun kv => proj1 (writeMember_constOrId kv)) kvs) as Hu.
  destruct (BindMeter_fields (decodeMeter kvs m))
    as (H1 & H2 & H3 & H4 & H5 & H6 & H7).
  apply BindMeter_ext.
  - by rewrite decodeMeter_ID, BindMeter_ID.
  - by apply constOrId_absorb.
  - apply constOrId_absorb; [|done]. apply Hs. intros kv.
    apply (writeMember_constOrId kv).
  - apply constOrId_absorb; [|done]. apply Hs. intros kv.
    apply (writeMember_constOrId kv).
  - apply constOrId_absorb; [|done]. apply Hs. intros kv.
    apply (writeMember_constOrId kv).
  - apply constOrId_absorb; [|done]. apply Hs. intros kv.
    apply (writeMember_constOrId kv).
  - apply constOrId_absorb_duration; [|done]. apply Hs. intros kv.
    apply (writeMember_constOrId kv).
Qed.

Lemma updateRecord_idem body m :
  updateRecord body (updateRecord body m) = updateRecord body m.
Proof.
  unfold updateRecord. destruct (_ || _).
  - apply decodeMeter_idem.
  - by rewrite BindMeter_decode_idem.
Qed.

Lemma updateResult_idem body m :
  updateResult body (updateRecord body m) = updateResult body m.
Proof.
  unfold updateResult, updateRecord.
  destruct (bodyMeta body) as [[u pid] e]. cbn [fst snd].
  destruct e; [done|]. destruct (userBindFails u); [done|].
  cbn [orb]. by rewrite BindMeter_decode_idem.
Qed.

(** X8.  Serving the same update request a second time gives the same
    answer as the first time and leaves the state the first one left,
    whether the update succeeds, fails to bind or misses. *)
Theorem update_twice_same meterID body st :
  serve (ReqUpdate meterID body) (serve (ReqUpdate meterID body) st).2
  = serve (ReqUpdate meterID body) st.
Proof.
  destruct (decide (meterID <> "")) as [Hid|Hid].
  - destruct (list_find (hasID (heap st) meterID) (meters st))
      as [[i p]|] eqn:Hfind.
    + destruct (list_find_hasID _ _ _ _ _ Hfind) as (_ & m & Hp & _).
      rewrite (serve_update_hit _ body _ _ _ _ Hid Hfind Hp). cbn [snd].
      assert (Hp1 : <[p := updateRecord body m]> (heap st) !! p
                    = Some (updateRecord body m)).
      { apply list_lookup_insert_eq. by eapply lookup_lt_Some. }
      rewrite (serve_update_hit meterID body _ i p (updateRecord body m) Hid).
      * cbn [heap meters]. rewrite list_insert_insert_eq.
        unfold updateResponse.
        by rewrite updateResult_idem, updateRecord_idem.
      * cbn [heap meters].
        by rewrite (list_find_hasID_insert _ _ _ m _ _ Hp
                      (updateRecord_ID body m)).
      * exact Hp1.
    + assert (Hmiss : serve (ReqUpdate meterID body) st = (ErrNotFound, st)).
      { cbn [serve]. unfold MeterCtx, dbGetMeter.
        rewrite decide_True by done. by rewrite Hfind. }
      by rewrite !Hmiss.
  - assert (Hmiss : serve (ReqUpdate meterID body) st = (ErrNotFound, st)).
    { apply dec_stable in Hid. subst meterID. cbn [serve]. unfold MeterCtx.
      by rewrite !decide_False by (intros H; by apply H). }
    by rewrite !Hmiss.
Qed.


(** X9.  An update whose body does not decode (a member of the wrong
    type, or a body that is no JSON object) is answered with Invalid-Request
    before [Bind] runs; the members that did decode have been written to the
    record of the store all the same, and its slug is not derived again. *)
Theorem UpdateMeter_decode_error_writes body meter st m :
  heap st !! meter = Some m ->
  (DecodeJSON body (mkMeterRequest (Some meter) None "") (heap st)).2 = true ->
  UpdateMeter body meter st
  = (ErrInvalidRequest errDecode,
     mkState (<[meter := decodeMeter (members body) m]> (heap st)) (meters st)).
Proof.
  intros Hp He. unfold UpdateMeter, renderBind.
  rewrite (DecodeJSON_ptr_meta _ _ _ _ Hp) in He |- *. cbn [snd] in He.
  by rewrite He.
Qed.

(** X10.  A create whose body does not decode is answered with
    Invalid-Request, never with a panic, and the slice and the records of the
    store are as before. *)
Theorem CreateMeter_decode_error body r st :
  wf st ->
  (DecodeJSON body (mkMeterRequest None None "") (heap st)).2 = true ->
  exists st1,
    CreateMeter body r st = (ErrInvalidRequest errDecode, st1)
    /\ meters st1 = meters st /\ records st1 = records st.
Proof.
  intros Hwf He. unfold CreateMeter, renderBind.
  destruct (DecodeJSON_nil body (heap st)) as (u & pid & e & Hdec).
  rewrite Hdec in He |- *. destruct st as [h ms]. cbn [heap meters] in *.
  destruct (existsb _ (members body)); cbn [snd] in He; subst e.
  - eexists. split; [reflexivity|]. split; [done|]. by apply records_heap_app.
  - eexists. split; [reflexivity|]. done.
Qed.


End Model.

(** ** The claims on concrete requests

    The library parameters are instantiated with ASCII lower-casing, the
    whole-number duration parser and a payload without user; where the order
    of the binders matters, with a user payload whose [Bind] fails. *)

Local Abbreviation createMeter :=
  (CreateMeter asciiLower wholeParseDuration asciiLower unit noUser noUserBind).
Local Abbreviation updateMeter :=
  (UpdateMeter asciiLower wholeParseDuration asciiLower unit noUser noUserBind).
Local Abbreviation serveReq :=
  (serve asciiLower wholeParseDuration asciiLower unit noUser noUserBind).
Local Abbreviation runReqs :=
  (run asciiLower wholeParseDuration asciiLower unit noUser noUserBind).

Lemma wf_stateWithout1 : wf stateWithout1.
Proof. unfold wf. simpl. repeat constructor. Qed.

(** C1 at a concrete input: the Meter "1" is resolved (location 0), then
    deleted by another request, then the update goes on: it is answered 200
    with the Meter, and no record of the store has the ID "1". *)
Lemma UpdateMeter_missing_id_witness :
  dbGetMeter "1" initState = Some 0%nat
  /\ (serveReq (ReqDelete "1") initState).2 = stateWithout1
  /\ exists m' st1,
       updateMeter (bodyProject "renamed") 0%nat stateWithout1
         = (Rendered 200 m', st1)
       /\ ID m' = "1" /\ "1" ∉ ids st1.
Proof.
  split; [reflexivity|]. split; [reflexivity|].
  assert (Hb : exists a h,
             renderBind asciiLower wholeParseDuration asciiLower unit noUser
               noUserBind (bodyProject "renamed")
               (mkMeterRequest unit (Some 0%nat) None "") (heap stateWithout1)
             = (BindOk, a, h)).
  { do 2 eexists. vm_compute. reflexivity. }
  destruct Hb as (a & h & Hb).
  destruct (UpdateMeter_missing_id_succeeds asciiLower wholeParseDuration
              asciiLower unit noUser noUserBind (bodyProject "renamed") 0%nat
              stateWithout1 (mkMeter "1" 100 "Hi" "" "" "" "" 0 "hi") a h)
    as (m' & H1 & H2 & H3).
  - apply wf_stateWithout1.
  - reflexivity.
  - compute_done.
  - exact Hb.
  - exists m', (mkState h (meters stateWithout1)). auto.
Defined.

(** C2, as stated, fails: two creates that draw the same number leave two
    different records with the ID "10" in the store. *)
Lemma ids_collide_counterexample :
  ~ NoDup (ids (runReqs [ReqCreate (bodyProject "one") 0;
                         ReqCreate (bodyProject "two") 0] initState).2)
  /\ exists a b,
       records (runReqs [ReqCreate (bodyProject "one") 0;
                         ReqCreate (bodyProject "two") 0] initState).2
         !! 5%nat = Some a
       /\ records (runReqs [ReqCreate (bodyProject "one") 0;
                            ReqCreate (bodyProject "two") 0] initState).2
            !! 6%nat = Some b
       /\ a <> b /\ ID a = ID b.
Proof.
  split.
  - compute_done.
  - do 2 eexists. split; [vm_compute; reflexivity|].
    split; [vm_compute; reflexivity|]. split; [discriminate|reflexivity].
Qed.

(** C2 (amended) on a sequence with distinct draws. *)
Lemma ids_unique_witness :
  NoDup (ids (runReqs [ReqCreate bodyAwesomeness 87; ReqDelete "1";
                       ReqUpdate "2" bodyBadDuration;
                       ReqCreate bodyNoId 3] initState).2).
Proof.
  apply ids_unique_when_draws_distinct. compute_done.
Defined.

(** C3, as stated, fails: the same PUT /meters/2 with a bad duration
    served a second time decodes, fails to parse, is answered with
    Invalid-Request, and leaves the store exactly as it found it. *)
Lemma UpdateMeter_bad_duration_counterexample :
  exists st,
    (serveReq (ReqUpdate "2" bodyBadDuration) initState).2 = st
    /\ (DecodeJSON asciiLower unit noUser bodyBadDuration
          (mkMeterRequest unit (Some 1%nat) None "") (heap st)).2 = false
    /\ wholeParseDuration "D1393" = None
    /\ serveReq (ReqUpdate "2" bodyBadDuration) st
       = (ErrInvalidRequest (errParseDuration "D1393"), st)
    /\ records (serveReq (ReqUpdate "2" bodyBadDuration) st).2 = records st.
Proof.
  eexists. split; [vm_compute; reflexivity|].
  split; [vm_compute; reflexivity|]. split; [vm_compute; reflexivity|].
  split; vm_compute; reflexivity.
Qed.

(** C3 (amended) on PUT /meters/2 with a bad duration: Invalid-Request, and
    the record "2" of the store now has the project, the connection fields
    and the duration string of the body, so the store has changed.  With a
    user payload whose [Bind] fails, the answer is that error and the slug is
    the old one. *)
Lemma UpdateMeter_bad_duration_witness :
  updateMeter bodyBadDuration 1%nat initState
  = (ErrInvalidRequest (errParseDuration "D1393"),
     mkState
       (<[1%nat := mkMeter "2" 200 "BAD-duration-example" "user1" ""
                     "Your-PassWd" "D1393" 0 "bad-duration-example"]> fixtures)
       [0; 1; 2; 3; 4]%nat)
  /\ records (updateMeter bodyBadDuration 1%nat initState).2 !! 1%nat
     = Some (mkMeter "2" 200 "BAD-duration-example" "user1" ""
               "Your-PassWd" "D1393" 0 "bad-duration-example")
  /\ records (updateMeter bodyBadDuration 1%nat initState).2
     <> records initState
  /\ UpdateMeter asciiLower wholeParseDuration asciiLower unit strictUser
       strictUserBind bodyBadDurationUser 1%nat initState
     = (ErrInvalidRequest errUserBind,
        mkState
          (<[1%nat := mkMeter "2" 200 "BAD-duration-example" "" "" ""
                        "D1393" 0 "sup"]> fixtures)
          [0; 1; 2; 3; 4]%nat).
Proof.
  destruct (UpdateMeter_bad_duration_overwrites asciiLower wholeParseDuration
              asciiLower unit noUser noUserBind bodyBadDuration 1%nat initState
              (mkMeter "2" 200 "sup" "" "" "" "" 0 "sup"))
    as (H1 & _ & H3).
  - apply wf_initState.
  - reflexivity.
  - vm_compute. reflexivity.
  - vm_compute. discriminate.
  - vm_compute. reflexivity.
  - destruct (UpdateMeter_bad_duration_overwrites asciiLower wholeParseDuration
                asciiLower unit strictUser strictUserBind bodyBadDurationUser
                1%nat initState (mkMeter "2" 200 "sup" "" "" "" "" 0 "sup"))
      as (H4 & _ & _).
    + apply wf_initState.
    + reflexivity.
    + vm_compute. reflexivity.
    + vm_compute. discriminate.
    + vm_compute. reflexivity.
    + destruct (H3 1%nat eq_refl) as [H5 H6].
      split; [exact H1|]. rewrite H1.
      split; [exact H5|]. split; [|exact H4].
      intros Heq. apply H6 in Heq. vm_compute in Heq. discriminate.
Defined.

(** C4, as stated, fails: an "id" that is a number is not discarded; the
    create is answered with Invalid-Request and appends nothing, where the
    same body without the "id" is created. *)
Lemma CreateMeter_client_id_counterexample :
  (exists st1,
      createMeter bodyNumericIdProject 0 initState
      = (ErrInvalidRequest errDecode, st1)
      /\ meters st1 = meters initState /\ records st1 = records initState)
  /\ dropId asciiLower bodyNumericIdProject = bodyProject "p"
  /\ exists m st1,
       createMeter (bodyProject "p") 0 initState = (Rendered 201 m, st1)
       /\ ID m = "10".
Proof.
  split; [eexists; split; [vm_compute; reflexivity|split; reflexivity]|].
  split; [reflexivity|].
  do 2 eexists. split; [vm_compute; reflexivity|reflexivity].
Qed.

(** C4 (amended) on the create of the repository's script: the outcome is
    that of the request without its "id", and the ID of the record is made
    from the draw. *)
Lemma CreateMeter_discards_client_id_witness :
  createMeter bodyAwesomeness 87 initState
  = createMeter (bodyProject "awesomeness") 87 initState
  /\ exists m st1,
       createMeter bodyAwesomeness 87 initState = (Rendered 201 m, st1)
       /\ ID m = "97"
       /\ st1 = mkState (fixtures ++ [m]) [0; 1; 2; 3; 4; 5]%nat.
Proof.
  destruct (CreateMeter_discards_client_id asciiLower wholeParseDuration
              asciiLower unit noUser noUserBind bodyAwesomeness 87 initState)
    as (H1 & _ & H3).
  split; [exact (H1 eq_refl)|].
  destruct (createMeter bodyAwesomeness 87 initState) as [resp st1] eqn:H.
  assert (Hresp : exists m, resp = Rendered 201 m).
  { vm_compute in H. injection H as <- _. eauto. }
  destruct Hresp as [m ->]. exists m, st1. split; [reflexivity|].
  destruct (H3 201%nat m st1 eq_refl) as (H4 & H5 & _).
  split; [exact H4|exact H5].
Defined.

(** C5 on the create with duration "D1393" of the repository's script. *)
Lemma CreateMeter_bad_duration_witness :
  exists e st1,
    createMeter bodyBadDuration 3 initState = (ErrInvalidRequest e, st1)
    /\ meters st1 = meters initState /\ records st1 = records initState
    /\ heap initState `prefix_of` heap st1.
Proof.
  apply (CreateMeter_bad_duration asciiLower wholeParseDuration asciiLower unit
           noUser noUserBind bodyBadDuration 3 initState).
  - apply wf_initState.
  - vm_compute. discriminate.
  - vm_compute. reflexivity.
Defined.

(** C6, as stated, fails: after a create that drew the same number, the
    get by the returned ID "10" answers with the older record, whose slug is
    not "x". *)
Lemma create_then_get_counterexample :
  exists m st1 m',
    createMeter (bodyProject "X") 0
      (runReqs [ReqCreate (bodyProject "Y") 0] initState).2
    = (Rendered 201 m, st1)
    /\ Slug m = "x"
    /\ serveReq (ReqGet (ID m)) st1 = (Rendered 200 m', st1)
    /\ Slug m' = "y" /\ Slug m' <> "x".
Proof.
  do 3 eexists. split; [vm_compute; reflexivity|].
  split; [reflexivity|]. split; [vm_compute; reflexivity|].
  split; [reflexivity|discriminate].
Qed.

(** C6 (amended) on the fixture store. *)
Lemma create_then_get_witness :
  exists m st1,
    createMeter (bodyProject "X") 0 initState = (Rendered 201 m, st1)
    /\ serveReq (ReqGet (ID m)) st1 = (Rendered 200 m, st1)
    /\ Slug m = "x" /\ Duration m = "1h".
Proof.
  apply (create_then_get_roundtrip asciiLower wholeParseDuration asciiLower unit
           noUser noUserBind "X" 0 initState 3600000000000).
  - apply wf_initState.
  - reflexivity.
  - compute_done.
Defined.

(** C7 on the Meter "1" resolved before it was deleted. *)
Lemma DeleteMeter_missing_id_witness :
  DeleteMeter 0%nat stateWithout1
  = (ErrInvalidRequest errMeterNotFound, stateWithout1).
Proof.
  apply (DeleteMeter_missing_id 0%nat stateWithout1
           (mkMeter "1" 100 "Hi" "" "" "" "" 0 "hi")).
  - reflexivity.
  - compute_done.
Defined.

(** C8 on two creates and two deletes with a listing in between: the
    listing shows the fixtures "2" to "5" and then the record of the second
    create. *)
Lemma ListMeters_witness :
  ListMeters (runReqs [ReqCreate bodyAwesomeness 87; ReqDelete "1"; ReqList;
                       ReqCreate bodyNoId 3; ReqDelete "97"] initState).2
  = (RenderedList
       [mkMeter "2" 200 "sup" "" "" "" "" 0 "sup";
        mkMeter "3" 300 "alo" "" "" "" "" 0 "alo";
        mkMeter "4" 400 "bonjour" "" "" "" "" 0 "bonjour";
        mkMeter "5" 500 "whats up" "" "" "" "" 0 "whats-up";
        mkMeter "13" 0 "No-id-example" "" "" "" "1h" 3600000000000
                "no-id-example"],
     (runReqs [ReqCreate bodyAwesomeness 87; ReqDelete "1"; ReqList;
               ReqCreate bodyNoId 3; ReqDelete "97"] initState).2)
  /\ created [ReqCreate bodyAwesomeness 87; ReqDelete "1"; ReqList;
              ReqCreate bodyNoId 3; ReqDelete "97"]
       (runReqs [ReqCreate bodyAwesomeness 87; ReqDelete "1"; ReqList;
                 ReqCreate bodyNoId 3; ReqDelete "97"] initState).1
     = [mkMeter "97" 0 "awesomeness" "" "" "" "1h" 3600000000000 "awesomeness";
        mkMeter "13" 0 "No-id-example" "" "" "" "1h" 3600000000000
                "no-id-example"]
  /\ deleted [ReqCreate bodyAwesomeness 87; ReqDelete "1"; ReqList;
              ReqCreate bodyNoId 3; ReqDelete "97"]
       (runReqs [ReqCreate bodyAwesomeness 87; ReqDelete "1"; ReqList;
                 ReqCreate bodyNoId 3; ReqDelete "97"] initState).1
     = [mkMeter "1" 100 "Hi" "" "" "" "" 0 "hi";
        mkMeter "97" 0 "awesomeness" "" "" "" "1h" 3600000000000 "awesomeness"].
Proof.
  destruct (ListMeters_after_creates_and_deletes asciiLower wholeParseDuration
              asciiLower unit noUser noUserBind
              [ReqCreate bodyAwesomeness 87; ReqDelete "1"; ReqList;
               ReqCreate bodyNoId 3; ReqDelete "97"])
    as (H1 & H2 & H3 & _ & _).
  - repeat constructor.
  - split; [rewrite H1; vm_compute; reflexivity|].
    split; [rewrite H2; vm_compute; reflexivity|].
    rewrite H3; vm_compute; reflexivity.
Defined.

(** C9 on the fixture store: with an ID segment the slug is not looked at
    ("hi" is the slug of another Meter); without one the slug is; without
    both, or on a miss, the next handler (here one that would panic) is not
    run. *)
Lemma MeterCtx_precedence_witness :
  MeterCtx GetMeter "2" "hi" initState = GetMeter 1%nat initState
  /\ MeterCtx GetMeter "" "hi" initState = GetMeter 0%nat initState
  /\ MeterCtx (fun _ st => (Panic, st)) "6" "hi" initState = (ErrNotFound, initState)
  /\ MeterCtx (fun _ st => (Panic, st)) "" "" initState = (ErrNotFound, initState).
Proof.
  split; [|split; [|split]].
  - destruct (MeterCtx_precedence GetMeter "2" "hi" initState) as (H1 & _ & _).
    destruct H1 as [Hhit _]; [discriminate|].
    exact (proj1 (Hhit 1%nat eq_refl)).
  - destruct (MeterCtx_precedence GetMeter "" "hi" initState) as (_ & H2 & _).
    destruct H2 as [Hhit _]; [reflexivity|discriminate|].
    exact (proj1 (Hhit 0%nat eq_refl)).
  - destruct (MeterCtx_precedence (fun _ st => (Panic, st)) "6" "hi" initState)
      as (H1 & _ & _).
    destruct H1 as [_ Hmiss]; [discriminate|].
    exact (Hmiss eq_refl).
  - destruct (MeterCtx_precedence (fun _ st => (Panic, st)) "" "" initState)
      as (_ & _ & H3).
    exact (H3 eq_refl eq_refl).
Defined.

(** C10, as stated, fails: a body with only an "id" that is a number has
    no member for a field of the Meter, and is answered with Invalid-Request,
    not with a panic. *)
Lemma CreateMeter_numeric_id_counterexample :
  existsb (fun kv => isMeterKey asciiLower kv.1) (members bodyNumericId) = false
  /\ createMeter bodyNumericId 0 initState
     = (ErrInvalidRequest errDecode, initState)
  /\ (createMeter bodyNumericId 0 initState).1 <> Panic.
Proof.
  split; [reflexivity|]. split; [reflexivity|]. discriminate.
Qed.

(** C10 (amended) on the empty object and on a body with only a string
    "id", which panic, and on a body with only a user whose [Bind] fails,
    which is answered with that error. *)
Lemma CreateMeter_nil_Meter_witness :
  createMeter (BodyObject []) 0 initState = (Panic, initState)
  /\ createMeter bodyOnlyId 0 initState = (Panic, initState)
  /\ CreateMeter asciiLower wholeParseDuration asciiLower unit strictUser
       strictUserBind bodyOnlyUser 0 initState
     = (ErrInvalidRequest errUserBind, initState).
Proof.
  split; [|split].
  - exact (CreateMeter_nil_Meter_panics asciiLower wholeParseDuration asciiLower
             unit noUser noUserBind (BodyObject []) 0 initState
             eq_refl eq_refl).
  - exact (CreateMeter_nil_Meter_panics asciiLower wholeParseDuration asciiLower
             unit noUser noUserBind bodyOnlyId 0 initState eq_refl eq_refl).
  - exact (CreateMeter_nil_Meter_panics asciiLower wholeParseDuration asciiLower
             unit strictUser strictUserBind bodyOnlyUser 0 initState
             eq_refl eq_refl).
Defined.

(** ** The further properties on concrete requests *)

(** X1 on the create of the repository's script. *)
Lemma answered_record_is_bound_witness :
  bound asciiLower wholeParseDuration
    (mkMeter "97" 0 "awesomeness" "" "" "" "1h" 3600000000000 "awesomeness").
Proof.
  apply (answered_record_is_bound asciiLower wholeParseDuration asciiLower unit
           noUser noUserBind (ReqCreate bodyAwesomeness 87) initState 201 _
           (serveReq (ReqCreate bodyAwesomeness 87) initState).2).
  - apply wf_initState.
  - vm_compute. reflexivity.
  - left. eauto.
Defined.

(** X2 on PUT /meters/2 with a bad duration: the second record is the one
    rewritten, the four others are as before. *)
Lemma update_rewrites_one_record_witness :
  exists i m',
    meters (serveReq (ReqUpdate "2" bodyBadDuration) initState).2
    = meters initState
    /\ ids initState !! i = Some "2"
    /\ (forall j, (j < i)%nat -> ids initState !! j <> Some "2")
    /\ records (serveReq (ReqUpdate "2" bodyBadDuration) initState).2
       = <[i := m']> (records initState)
    /\ ID m' = "2"
    /\ (forall status m,
          (serveReq (ReqUpdate "2" bodyBadDuration) initState).1
          = Rendered status m -> status = 200%nat /\ m = m').
Proof.
  apply (update_rewrites_one_record asciiLower wholeParseDuration asciiLower
           unit noUser noUserBind "2" bodyBadDuration initState).
  - apply wf_initState.
  - compute_done.
  - vm_compute. reflexivity.
  - vm_compute. discriminate.
Defined.

(** X4 on the session of the source's header comment. *)
Lemma delete_then_not_found_witness :
  serveReq (ReqGet "1") stateWithout1 = (ErrNotFound, stateWithout1)
  /\ serveReq (ReqDelete "1") stateWithout1 = (ErrNotFound, stateWithout1).
Proof.
  destruct (delete_then_not_found asciiLower wholeParseDuration asciiLower unit
              noUser noUserBind "1" initState 200
              (mkMeter "1" 100 "Hi" "" "" "" "" 0 "hi") stateWithout1)
    as (_ & _ & _ & H1 & H2).
  - apply wf_initState.
  - compute_done.
  - reflexivity.
  - split; [exact H1|exact H2].
Defined.

(** X5 on the create of the repository's script. *)
Lemma create_then_delete_restores_witness :
  exists st2,
    serveReq (ReqDelete "97") (createMeter bodyAwesomeness 87 initState).2
    = (Rendered 200 (mkMeter "97" 0 "awesomeness" "" "" "" "1h" 3600000000000
                       "awesomeness"), st2)
    /\ meters st2 = meters initState /\ records st2 = records initState.
Proof.
  apply (create_then_delete_restores asciiLower wholeParseDuration asciiLower
           unit noUser noUserBind bodyAwesomeness 87 initState 201
           (mkMeter "97" 0 "awesomeness" "" "" "" "1h" 3600000000000
              "awesomeness")
           (createMeter bodyAwesomeness 87 initState).2).
  - apply wf_initState.
  - vm_compute. reflexivity.
  - compute_done.
Defined.

(** X7 on the fixture store: an unknown ID misses, a known slug does
    not. *)
Lemma not_found_iff_misses_witness :
  (serveReq (ReqDelete "6") initState).1 = ErrNotFound
  /\ (serveReq (ReqDelete "6") initState).2 = initState
  /\ (serveReq (ReqGetBySlug "whats-up") initState).1 <> ErrNotFound.
Proof.
  destruct (not_found_iff_misses asciiLower wholeParseDuration asciiLower unit
              noUser noUserBind (ReqDelete "6") initState wf_initState)
    as [H1 H2].
  destruct (not_found_iff_misses asciiLower wholeParseDuration asciiLower unit
              noUser noUserBind (ReqGetBySlug "whats-up") initState wf_initState)
    as [H3 _].
  assert (Hmiss : (serveReq (ReqDelete "6") initState).1 = ErrNotFound).
  { apply H1. right. compute_done. }
  split; [exact Hmiss|]. split; [exact (H2 Hmiss)|].
  intros Hnf. apply H3 in Hnf. destruct Hnf as [Hnf|Hnf]; [discriminate|].
  apply Hnf. compute_done.
Defined.

(** X9 on PUT /meters/2 with a user_id that is a string: Invalid-Request,
    the project name is written, the slug is the old one. *)
Lemma UpdateMeter_decode_error_witness :
  updateMeter (BodyObject [("project", JStr "New"); ("user_id", JStr "oops")])
    1%nat initState
  = (ErrInvalidRequest errDecode,
     mkState (<[1%nat := mkMeter "2" 200 "New" "" "" "" "" 0 "sup"]> fixtures)
       [0; 1; 2; 3; 4]%nat).
Proof.
  apply (UpdateMeter_decode_error_writes asciiLower wholeParseDuration asciiLower
           unit noUser noUserBind
           (BodyObject [("project", JStr "New"); ("user_id", JStr "oops")])
           1%nat initState (mkMeter "2" 200 "sup" "" "" "" "" 0 "sup")).
  - reflexivity.
  - vm_compute. reflexivity.
Defined.

(** X10 on a body that is not JSON and on a body with a number as "id". *)
Lemma CreateMeter_decode_error_witness :
  (exists st1,
      createMeter BodyInvalid 0 initState = (ErrInvalidRequest errDecode, st1)
      /\ meters st1 = meters initState /\ records st1 = records initState)
  /\ (exists st1,
        createMeter bodyNumericId 0 initState = (ErrInvalidRequest errDecode, st1)
        /\ meters st1 = meters initState /\ records st1 = records initState).
Proof.
  split.
  - apply (CreateMeter_decode_error asciiLower wholeParseDuration asciiLower unit
             noUser noUserBind BodyInvalid 0 initState wf_initState).
    reflexivity.
  - apply (CreateMeter_decode_error asciiLower wholeParseDuration asciiLower unit
             noUser noUserBind bodyNumericId 0 initState wf_initState).
    reflexivity.
Defined.

(** ** The session of the source's header comment and of the spec's
    testable properties, run on the model *)

Example delete_then_get_not_found :
  (runReqs [ReqDelete "1"; ReqGet "1"] initState).1
  = [Rendered 200 (mkMeter "1" 100 "Hi" "" "" "" "" 0 "hi"); ErrNotFound].
Proof. vm_compute. reflexivity. Qed.

Example create_awesomeness_then_get :
  (runReqs [ReqCreate bodyAwesomeness 87; ReqGet "97"] initState).1
  = [Rendered 201 (mkMeter "97" 0 "awesomeness" "" "" "" "1h" 3600000000000
                     "awesomeness");
     Rendered 200 (mkMeter "97" 0 "awesomeness" "" "" "" "1h" 3600000000000
                     "awesomeness")].
Proof. vm_compute. reflexivity. Qed.

Example create_one_minute :
  (createMeter (BodyObject [("project", JStr "duration-example");
                            ("duration", JStr "1m")]) 0 initState).1
  = Rendered 201 (mkMeter "10" 0 "duration-example" "" "" "" "1m" 60000000000
                    "duration-example").
Proof. vm_compute. reflexivity. Qed.

Example get_by_slug :
  (serveReq (ReqGetBySlug "whats-up") initState).1
  = Rendered 200 (mkMeter "5" 500 "whats up" "" "" "" "" 0 "whats-up").
Proof. vm_compute. reflexivity. Qed.

Example update_keeps_id :
  (serveReq (ReqUpdate "2" (BodyObject [("id", JStr "7"); ("project", JStr "Sup");
                                        ("user_id", JInt 9)])) initState).1
  = Rendered 200 (mkMeter "2" 9 "Sup" "" "" "" "1h" 3600000000000 "sup").
Proof. vm_compute. reflexivity. Qed.

Example key_case_is_folded :
  (createMeter (BodyObject [("ID", JStr "x"); ("Project", JStr "P")]) 1 initState).1
  = Rendered 201 (mkMeter "11" 0 "P" "" "" "" "1h" 3600000000000 "p").
Proof. vm_compute. reflexivity. Qed.

Example user_bind_runs_first :
  (CreateMeter asciiLower wholeParseDuration asciiLower unit strictUser
     strictUserBind bodyBadDurationUser 0 initState).1
  = ErrInvalidRequest errUserBind.
Proof. vm_compute. reflexivity. Qed.
